(** * spectrum.py: a shallow embedding and its verified properties

    The program reads an audio file, runs an optional chain of effects
    over the sample buffer and writes the result (src/spectrum.py).

    Conventions of the embedding:
    - a Python [str] is a [string] of 8-bit code points;
    - a Python [int] is a [Z]; a Python [float] is a binary64 number,
      Rocq's primitive [float], with the rounding of every operation;
    - a one-dimensional numpy array of samples is a [list Qc], exact
      rationals (the rounding of the samples is not modelled);
    - an options [dict] is a [gmap string pyval];
    - exceptions are values of [exn], carried by [result];
    - console input, console output and the call of the file writer are
      threaded through an explicit [console] state. *)

From Stdlib Require Import ZArith QArith Qcanon String Ascii List Lia Floats.
From stdpp Require Import gmap strings list.

Import ListNotations.
Local Open Scope string_scope.
Local Open Scope list_scope.
Local Open Scope Z_scope.

(** ** Python values *)

(** The exceptions the program meets; all of them derive from
    [Exception], which is what the second handler of [read_audio]
    catches. *)
Inductive exn : Type :=
| FileNotFoundError
| TypeError
| ValueError
| KeyError
| ZeroDivisionError
| OverflowError
| EOFError
| OtherException (msg : string).

Inductive result (A : Type) : Type :=
| Ok (a : A)
| Raise (e : exn).
Arguments Ok {A} a.
Arguments Raise {A} e.

Definition result_bind {A B} (r : result A) (k : A -> result B) : result B :=
  match r with
  | Ok a => k a
  | Raise e => Raise e
  end.

Declare Scope result_scope.
Delimit Scope result_scope with res.
Notation "'let?' x ':=' m 'in' k" := (result_bind m (fun x => k))
  (at level 10, x pattern, m at level 100, k at level 200) : result_scope.

(** The text [str(e)] that [print(f"Error: {e}")] shows; the wording of
    the built-in exceptions stands for whatever the raising call put in. *)
Definition exn_text (e : exn) : string :=
  match e with
  | FileNotFoundError => "No such file or directory"
  | TypeError => "unsupported operand"
  | ValueError => "invalid value"
  | KeyError => "key"
  | ZeroDivisionError => "division by zero"
  | OverflowError => "int too large to convert to float"
  | EOFError => "EOF when reading a line"
  | OtherException msg => msg
  end.

Definition buffer : Type := list Qc.

(** Scalars, the values an options mapping holds. *)
Inductive pyval : Type :=
| VNone
| VBool (b : bool)
| VInt (n : Z)
| VFloat (x : float)
| VStr (s : string).

(** Objects that travel between [read_audio] and [main]. *)
#[local] Unset Elimination Schemes.
Inductive pyobj : Type :=
| OVal (v : pyval)
| OArray (samples : buffer)
| OTuple (items : list pyobj).
#[local] Set Elimination Schemes.

Definition Qc_is_zero (x : Qc) : bool :=
  match Qnum (this x) with
  | Z0 => true
  | _ => false
  end.

Definition str_is_empty (s : string) : bool :=
  match s with
  | EmptyString => true
  | String _ _ => false
  end.

(** Python truth value of a scalar. *)
Definition truthy (v : pyval) : bool :=
  match v with
  | VNone => false
  | VBool b => b
  | VInt n => negb (n =? 0)
  | VFloat x => negb (x =? 0)%float
  | VStr s => negb (str_is_empty s)
  end.

(** [d.get(key)] and [d.get(key, default)]. *)
Definition dict_get (d : gmap string pyval) (key : string) : pyval :=
  default VNone (d !! key).

Definition dict_get_default (d : gmap string pyval) (key : string)
    (dflt : pyval) : pyval :=
  default dflt (d !! key).

Definition Qc_of_Z (n : Z) : Qc := Q2Qc (inject_Z n).

(** The float literals [0.1] (the double nearest to one tenth) and
    [0.5]. *)
Definition float_0_1 : float := 0x1.999999999999ap-4%float.
Definition float_0_5 : float := 0.5%float.

(** One half, as mantissa and exponent. *)
Definition SF_half : spec_float := S754_finite false 4503599627370496 (-53).

(** [float(n)] for an [int]: the nearest double, ties to even. An int
    too large for a double raises [OverflowError]. *)
Definition float_of_int (n : Z) : result float :=
  let x := SF2Prim (binary_normalize prec emax n 0 false) in
  if is_infinity x then Raise OverflowError else Ok x.

(** An [int] as an unrounded binary number. *)
Definition sf_of_int (n : Z) : spec_float :=
  match n with
  | Z0 => S754_zero false
  | Zpos p => S754_finite false p 0
  | Zneg p => S754_finite true p 0
  end.

(** [k / n] for two ints, [n] other than 0: the exact quotient rounded
    once to the nearest double; a quotient too large for a double raises
    [OverflowError]. *)
Definition int_truediv (k n : Z) : result float :=
  let x := SF2Prim (SF64div (sf_of_int k) (sf_of_int n)) in
  if is_infinity x then Raise OverflowError else Ok x.

(** [x / n] for a scalar [x] and an [int] [n]: true division. A [bool]
    divides as the int 0 or 1; a float divides by [float(n)]. *)
Definition py_truediv (x : pyval) (n : Z) : result float :=
  match x with
  | VNone => Raise TypeError
  | VStr _ => Raise TypeError
  | VBool b =>
      if n =? 0 then Raise ZeroDivisionError
      else int_truediv (if b then 1 else 0) n
  | VInt k =>
      if n =? 0 then Raise ZeroDivisionError
      else int_truediv k n
  | VFloat q =>
      (let? d := float_of_int n in
       if (d =? 0)%float then Raise ZeroDivisionError
       else Ok (q / d)%float)%res
  end.

(** A float times an [int], as in [0.1 * sample_rate]: the product with
    [float(n)]. *)
Definition float_times_int (x : float) (n : Z) : result float :=
  (let? d := float_of_int n in Ok (x * d)%float)%res.

(** One tenth and one half as exact sample values. *)
Definition one_tenth : Qc := Q2Qc (1 # 10).
Definition one_half : Qc := Q2Qc (1 # 2).

(** ** Strings *)

(** [str.isspace] on the code points below 256. *)
Definition is_space (c : ascii) : bool :=
  let n := N_of_ascii c in
  ((9 <=? n) && (n <=? 13) || (28 <=? n) && (n <=? 32)
   || (n =? 133) || (n =? 160))%N.

Fixpoint lstrip (s : string) : string :=
  match s with
  | EmptyString => EmptyString
  | String c s' => if is_space c then lstrip s' else s
  end.

Fixpoint rstrip (s : string) : string :=
  match s with
  | EmptyString => EmptyString
  | String c s' =>
      match rstrip s' with
      | EmptyString => if is_space c then EmptyString else String c EmptyString
      | r => String c r
      end
  end.

(** [s.strip()] *)
Definition strip (s : string) : string := rstrip (lstrip s).

Fixpoint all_space (s : string) : bool :=
  match s with
  | EmptyString => true
  | String c s' => is_space c && all_space s'
  end.

(** A string is blank when it is empty or holds only whitespace. *)
Definition blank (s : string) : bool := all_space s.

Definition lower_char (c : ascii) : ascii :=
  let n := N_of_ascii c in
  if ((65 <=? n) && (n <=? 90)
      || (192 <=? n) && (n <=? 222) && negb (n =? 215))%N
  then ascii_of_N (n + 32) else c.

(** [s.lower()] *)
Fixpoint lower (s : string) : string :=
  match s with
  | EmptyString => EmptyString
  | String c s' => String (lower_char c) (lower s')
  end.

(** [s.endswith(suffix)] *)
Definition endswith (s suffix : string) : bool :=
  let n := String.length s in
  let m := String.length suffix in
  if (m <=? n)%nat then String.eqb (substring (n - m) m s) suffix else false.

(** ** Console and file writer *)

Inductive event : Type :=
| EPrompt (prompt : string)
| EPrint (line : string)
| EWrite (output_path : string) (data : buffer) (sample_rate : Z).

Record console : Type := Console {
  pending : list string;   (* lines still to be typed by the user *)
  shown : list event       (* what happened so far, oldest first *)
}.

Definition IO (A : Type) : Type := console -> result A * console.

Definition ret {A} (a : A) : IO A := fun c => (Ok a, c).

Definition raise {A} (e : exn) : IO A := fun c => (Raise e, c).

Definition bind {A B} (m : IO A) (k : A -> IO B) : IO B :=
  fun c =>
    match m c with
    | (Ok a, c') => k a c'
    | (Raise e, c') => (Raise e, c')
    end.

Definition lift {A} (r : result A) : IO A := fun c => (r, c).

Definition emit (e : event) : IO unit :=
  fun c => (Ok tt, Console (pending c) (shown c ++ [e])).

Definition print (line : string) : IO unit := emit (EPrint line).

Declare Scope io_scope.
Delimit Scope io_scope with io.
Notation "'let*' x ':=' m 'in' k" := (bind m (fun x => k))
  (at level 10, x pattern, m at level 100, k at level 200) : io_scope.
Notation "'run' m 'in' k" := (bind m (fun _ => k))
  (at level 10, m at level 100, k at level 200) : io_scope.

(** ** get_user_input (lines 91-106) *)

(** The [while True] loop runs once per typed line; [input] raises
    [EOFError] when no line is left. The result is the outcome, the lines
    left and the events of the loop. *)
Fixpoint get_user_input_loop (prompt : string) (lines : list string)
    : result string * list string * list event :=
  match lines with
  | [] => (Raise EOFError, [], [EPrompt prompt])
  | user_input :: rest =>
      if truthy (VStr user_input)
      then (Ok (strip user_input), rest, [EPrompt prompt])
      else
        let '(r, rest', evs) := get_user_input_loop prompt rest in
        (r, rest', EPrompt prompt :: EPrint "Please enter a value." :: evs)
  end.

Definition get_user_input (prompt : string) : IO string :=
  fun c =>
    let '(r, rest, evs) := get_user_input_loop prompt (pending c) in
    (r, Console rest (shown c ++ evs)).

(** ** External libraries

    None of pydub, soundfile, librosa or the operating system is part of
    the repository. What [read_audio] and [write_audio] reach on disk is
    a [world]; the two librosa routines are a [librosa] record, so that
    everything proved about [process_audio] and [main] holds for every
    behaviour of these routines. *)

(** pydub's [AudioSegment]: integer PCM samples and their format. *)
Record AudioSegment : Type := Segment {
  frame_rate : Z;
  channels : Z;
  sample_width : Z;          (* bytes per sample *)
  raw_samples : list Z
}.

Record world : Type := World {
  expanduser : string -> string;                     (* os.path.expanduser *)
  abspath : string -> string;                        (* os.path.abspath *)
  from_file : string -> result AudioSegment;         (* AudioSegment.from_file *)
  tomono : Z -> Z -> list Z -> list Z;               (* channel mixdown *)
  ratecv : Z -> Z -> Z -> list Z -> list Z;          (* resampler *)
  sf_read : string -> result (buffer * Z);           (* soundfile.read *)
  sf_write : string -> buffer -> Z -> result unit    (* soundfile.write *)
}.

Record librosa : Type := Librosa {
  preemphasis : float -> buffer -> result buffer;    (* librosa.effects.preemphasis *)
  normalize : buffer -> result buffer                (* librosa.util.normalize *)
}.

(** Modelled from the spec: pydub's [set_channels] is not in src/; the
    spec has the reader "force to single channel". A segment that already
    has the requested channel count is returned as it is, otherwise the
    samples go through the mixdown and the channel count is replaced. *)
Definition set_channels (w : world) (n : Z) (audio : AudioSegment)
    : AudioSegment :=
  if channels audio =? n then audio
  else Segment (frame_rate audio) n (sample_width audio)
         (tomono w (channels audio) (sample_width audio) (raw_samples audio)).

(** Modelled from the spec: pydub's [set_frame_rate] is not in src/; the
    spec has the reader "resample to a fixed rate". A segment already at
    the requested rate is returned as it is, otherwise the samples go
    through the resampler and the rate is replaced. *)
Definition set_frame_rate (w : world) (rate : Z) (audio : AudioSegment)
    : AudioSegment :=
  if frame_rate audio =? rate then audio
  else Segment rate (channels audio) (sample_width audio)
         (ratecv w (sample_width audio) (frame_rate audio) rate
            (raw_samples audio)).

(** [np.iinfo(samples.dtype).max] for the array that
    [get_array_of_samples] builds: int8, int16 or int32 by sample width;
    no array type exists for another width. *)
Definition iinfo_max (width : Z) : result Z :=
  match width with
  | 1 => Ok 127
  | 2 => Ok 32767
  | 4 => Ok 2147483647
  | _ => Raise KeyError
  end.

(** ** read_audio (lines 7-41) *)

Local Open Scope result_scope.
Local Open Scope io_scope.

(** The body of the [try] block after the diagnostic print. *)
Definition decode (w : world) (filepath : string) : result (buffer * Z) :=
  if endswith (lower filepath) ".m4a" then
    let? audio := from_file w filepath in
    let audio := set_channels w 1 audio in
    let audio := set_frame_rate w 22050 audio in
    let? imax := iinfo_max (sample_width audio) in
    let samples := raw_samples audio in
    let samples := map (fun s => (Qc_of_Z s / Qc_of_Z imax)%Qc) samples in
    let sample_rate := frame_rate audio in
    Ok (samples, sample_rate)
  else
    sf_read w filepath.

Definition read_audio (w : world) (filepath : string) : IO pyobj :=
  let filepath := expanduser w filepath in
  let filepath := abspath w filepath in
  run print (String.append "Reading audio file from: " filepath) in
  match decode w filepath with
  | Ok (samples, sample_rate) =>
      ret (OTuple [OArray samples; OVal (VInt sample_rate)])
  | Raise FileNotFoundError =>
      run print (String.append "Error: Audio file not found at " filepath) in
      ret (OVal VNone)
  | Raise e =>
      run print (String.append "Error: " (exn_text e)) in
      ret (OVal VNone)
  end.

(** ** process_audio (lines 43-78) *)

(** The [pass] statement. *)
Definition pass : unit := tt.

(** The default handed to [options.get] is an argument of the call, so
    [0.1 * sample_rate] is computed before the lookup. *)
Definition process_audio (L : librosa) (audio_data : buffer)
    (sample_rate : Z) (options : gmap string pyval) : result buffer :=
  let _ := if truthy (dict_get options "noise_reduction") then pass else tt in
  let? audio_data :=
    if truthy (dict_get options "speech_emphasis") then
      let? dflt := float_times_int float_0_1 sample_rate in
      let rolloff_freq :=
        dict_get_default options "rolloff_freq" (VFloat dflt) in
      let? coef := py_truediv rolloff_freq sample_rate in
      preemphasis L coef audio_data
    else Ok audio_data in
  let _ :=
    if truthy (dict_get options "bass_boost") then pass
    else if truthy (dict_get options "treble_boost") then pass
    else tt in
  let? audio_data :=
    if truthy (dict_get options "normalize") then normalize L audio_data
    else Ok audio_data in
  let _ := if truthy (dict_get options "compress") then pass else tt in
  Ok audio_data.

(** ** write_audio (lines 80-89) *)

Definition write_audio (w : world) (processed_data : buffer)
    (sample_rate : Z) (output_path : string) : IO unit :=
  run emit (EWrite output_path processed_data sample_rate) in
  lift (sf_write w output_path processed_data sample_rate).

(** ** main (lines 108-137) *)

(** How a run of [main] that raises nothing ends. *)
Inductive ending : Type :=
| ReturnedEarly      (* the [return] of line 115 *)
| Completed.         (* fell off the end of [main] *)

(** [a, b = obj] *)
Definition unpack2 (obj : pyobj) : result (pyobj * pyobj) :=
  match obj with
  | OTuple [a; b] => Ok (a, b)
  | OTuple _ => Raise ValueError
  | OArray [x; y] => Ok (OArray [x], OArray [y])  (* two numpy scalars *)
  | OArray _ => Raise ValueError
  | OVal (VStr (String c (String d EmptyString))) =>
      Ok (OVal (VStr (String c EmptyString)), OVal (VStr (String d EmptyString)))
  | OVal (VStr _) => Raise ValueError
  | OVal _ => Raise TypeError
  end.

(** [obj is None] *)
Definition is_None (obj : pyobj) : bool :=
  match obj with
  | OVal VNone => true
  | _ => false
  end.

(** [process_audio] is written for an ndarray and an int, the types
    [read_audio] documents; any other object is outside the embedding
    and is turned into a [TypeError]. *)
Definition as_ndarray (obj : pyobj) : result buffer :=
  match obj with
  | OArray samples => Ok samples
  | _ => Raise TypeError
  end.

Definition as_int (obj : pyobj) : result Z :=
  match obj with
  | OVal (VInt n) => Ok n
  | _ => Raise TypeError
  end.

(** The dict display of lines 118-126; its only computed value is
    [0.1 * sample_rate]. *)
Definition main_options (sample_rate : Z) : result (gmap string pyval) :=
  let? rolloff_freq := float_times_int float_0_1 sample_rate in
  Ok (<["noise_reduction" := VBool true]>
      (<["speech_emphasis" := VBool true]>
      (<["rolloff_freq" := VFloat rolloff_freq]>
      (<["bass_boost" := VNone]>
      (<["treble_boost" := VNone]>
      (<["normalize" := VBool true]>
      (<["compress" := VBool false]> ∅))))))).

Definition main (w : world) (L : librosa) : IO ending :=
  let* audio_filepath := get_user_input "Enter the path to your audio file: " in
  let* r := read_audio w audio_filepath in
  let* (audio_data, sample_rate) := lift (unpack2 r) in
  if is_None audio_data then ret ReturnedEarly
  else
    let* audio_data := lift (as_ndarray audio_data) in
    let* sample_rate := lift (as_int sample_rate) in
    let* options := lift (main_options sample_rate) in
    let* processed_audio :=
      lift (process_audio L audio_data sample_rate options) in
    let* output_filepath :=
      get_user_input "Enter the path to save the processed audio file: " in
    run write_audio w processed_audio sample_rate output_filepath in
    run print "Audio processing complete!" in
    ret Completed.

(** A run from a given list of typed lines. *)
Definition run_main (w : world) (L : librosa) (typed : list string)
    : result ending * console :=
  main w L (Console typed []).

(** ** The two librosa routines, from their description *)

Definition Qc_leb (x y : Qc) : bool :=
  match (x ?= y)%Qc with
  | Gt => false
  | _ => true
  end.

Definition Qc_abs (x : Qc) : Qc := if Qc_leb 0 x then x else (- x)%Qc.

Definition Qc_max (x y : Qc) : Qc := if Qc_leb x y then y else x.

(** The maximum absolute sample of a buffer (0 for the empty buffer). *)
Fixpoint peak (y : buffer) : Qc :=
  match y with
  | [] => 0%Qc
  | x :: rest => Qc_max (Qc_abs x) (peak rest)
  end.

(** Modelled from the spec: [librosa.util.normalize] is not in src/. The
    spec describes peak normalization as "rescaling a signal so its
    maximum absolute amplitude equals a target value (here, 1.0)": every
    sample is divided by the peak. A buffer whose peak is 0 has no scale
    factor; it is returned as it is. *)
Definition peak_normalize (y : buffer) : buffer :=
  if Qc_is_zero (peak y) then y
  else map (fun x => (x / peak y)%Qc) y.

(** The exact value of a finite double. *)
Definition Qc_of_float (x : float) : option Qc :=
  match Prim2SF x with
  | S754_zero _ => Some 0%Qc
  | S754_finite s m e =>
      let zm := if s then Zneg m else Zpos m in
      Some (match e with
            | Z0 => Q2Qc (inject_Z zm)
            | Zpos p => Q2Qc (inject_Z (zm * Z.pow_pos 2 p))
            | Zneg p => Q2Qc (zm # Pos.pow 2 p)
            end)
  | _ => None
  end.

(** The samples after the first: each is the input sample minus the
    coefficient times the input sample before it. *)
Fixpoint first_order (coef prev : Qc) (y : buffer) : buffer :=
  match y with
  | [] => []
  | x :: rest => (x - coef * prev)%Qc :: first_order coef x rest
  end.

(** Modelled from the spec: [librosa.effects.preemphasis] is not in
    src/. The spec describes pre-emphasis as "a first-order high-pass
    filter" with a coefficient: each output sample after the first is
    the input sample minus the coefficient times the sample before it.
    The spec gives no initial state. Line 62 calls the routine without
    one, and the routine's default state, [2*y[0] - y[1]], is added to
    the first sample; it needs a buffer of two samples. The samples are
    exact, so a coefficient that is not a finite number is outside the
    embedding and is turned into [ValueError]. *)
Definition spec_preemphasis (coef : float) (y : buffer) : result buffer :=
  match Qc_of_float coef with
  | None => Raise ValueError
  | Some c =>
      match y with
      | y0 :: y1 :: rest =>
          Ok ((y0 + (2 * y0 - y1))%Qc :: first_order c y0 (y1 :: rest))
      | _ => Raise ValueError
      end
  end.

Definition spec_normalize (y : buffer) : result buffer :=
  Ok (peak_normalize y).

Definition spec_librosa : librosa :=
  Librosa spec_preemphasis spec_normalize.

(** The writes of a run, in order. *)
Fixpoint written (evs : list event) : list (string * buffer * Z) :=
  match evs with
  | [] => []
  | EWrite p d r :: rest => (p, d, r) :: written rest
  | _ :: rest => written rest
  end.

(** The path [read_audio] works on. *)
Definition resolve (w : world) (filepath : string) : string :=
  abspath w (expanduser w filepath).

(** ** A run of main, step by step *)

Definition prompt_in : string := "Enter the path to your audio file: ".
Definition prompt_out : string :=
  "Enter the path to save the processed audio file: ".

Definition reading_line (w : world) (filepath : string) : event :=
  EPrint (String.append "Reading audio file from: " (resolve w filepath)).

(** The message [read_audio] prints for an exception of the [try] block. *)
Definition failure_line (w : world) (filepath : string) (e : exn) : event :=
  match e with
  | FileNotFoundError =>
      EPrint (String.append "Error: Audio file not found at "
                (resolve w filepath))
  | _ => EPrint (String.append "Error: " (exn_text e))
  end.

(** Lines 118-129: the options are built, then the audio is processed. *)
Definition main_process (L : librosa) (samples : buffer) (rate : Z)
    : result buffer :=
  let? options := main_options rate in
  process_audio L samples rate options.

(** What a whole run does, by the outcome of each step. *)
Definition run_by_steps (w : world) (L : librosa) (typed : list string)
    : result ending * console :=
  match get_user_input_loop prompt_in typed with
  | (Raise e, rest, evs) => (Raise e, Console rest evs)
  | (Ok path, rest, evs) =>
      match decode w (resolve w path) with
      | Raise e =>
          (Raise TypeError,
           Console rest (evs ++ [reading_line w path; failure_line w path e]))
      | Ok (samples, rate) =>
          let evs1 := evs ++ [reading_line w path] in
          match main_process L samples rate with
          | Raise e => (Raise e, Console rest evs1)
          | Ok d =>
              match get_user_input_loop prompt_out rest with
              | (Raise e, rest', evs') => (Raise e, Console rest' (evs1 ++ evs'))
              | (Ok out, rest', evs') =>
                  let evs2 := (evs1 ++ evs') ++ [EWrite out d rate] in
                  match sf_write w out d rate with
                  | Raise e => (Raise e, Console rest' evs2)
                  | Ok _ =>
                      (Ok Completed,
                       Console rest'
                         (evs2 ++ [EPrint "Audio processing complete!"]))
                  end
              end
          end
      end
  end.

(** ** The effect chain as the spec words it

    "Applies, in this fixed order, any enabled steps": of the six steps
    only speech emphasis and normalization do anything. *)

(** Step 2: "pre-emphasis filter with coefficient = (rolloff frequency,
    default 10% of sample rate) / sample rate". *)
Definition emphasis_step (L : librosa) (y : buffer) (sample_rate : Z)
    (options : gmap string pyval) : result buffer :=
  if truthy (dict_get options "speech_emphasis") then
    let? dflt := float_times_int float_0_1 sample_rate in
    let? coef :=
      py_truediv (dict_get_default options "rolloff_freq" (VFloat dflt))
        sample_rate in
    preemphasis L coef y
  else Ok y.

(** Step 5: "peak-normalize buffer". *)
Definition normalize_step (L : librosa) (y : buffer)
    (options : gmap string pyval) : result buffer :=
  if truthy (dict_get options "normalize") then normalize L y else Ok y.

Definition effect_chain (L : librosa) (y : buffer) (sample_rate : Z)
    (options : gmap string pyval) : result buffer :=
  let? y1 := emphasis_step L y sample_rate options in
  normalize_step L y1 options.

(** ** Option flags as the spec words them

    "unknown/absent keys default to disabled": a step is enabled when
    its key is present with a value that Python counts as true, that is
    any value other than [None], [False], 0, 0.0 and the empty string. *)
Definition falsy (v : pyval) : Prop :=
  v = VNone \/ v = VBool false \/ v = VInt 0 \/
  (exists x, v = VFloat x /\ (x =? 0)%float = true) \/ v = VStr "".

Definition enabled (options : gmap string pyval) (key : string) : Prop :=
  exists v, options !! key = Some v /\ ~ falsy v.

Definition disabled (options : gmap string pyval) (key : string) : Prop :=
  options !! key = None \/ exists v, options !! key = Some v /\ falsy v.

(** A librosa that marks what it was called with: pre-emphasis puts the
    exact value of its coefficient in front of the buffer, normalization
    puts a 1 behind it. *)
Definition marking_librosa : librosa :=
  Librosa
    (fun coef y =>
       match Qc_of_float coef with
       | Some c => Ok (c :: y)
       | None => Raise ValueError
       end)
    (fun y => Ok (y ++ [1%Qc])).

(** ** Sample worlds

    A small file system used to run the program on concrete inputs:
    [clip.m4a] is a mono 16-bit recording at 22050 Hz that reaches full
    scale in both directions, [a.wav] is a two-sample recording at
    8000 Hz, [bad.wav] cannot be decoded and nothing else exists. *)
Definition demo_world : world :=
  World (fun s => s) (fun s => s)
    (fun p =>
       if String.eqb p "clip.m4a"
       then Ok (Segment 22050 1 2 [-32768; 0; 32767])
       else Raise FileNotFoundError)
    (fun _ _ l => l)
    (fun _ _ _ l => l)
    (fun p =>
       if String.eqb p "a.wav" then Ok ([one_half; (- one_tenth)%Qc], 8000)
       else if String.eqb p "bad.wav"
       then Raise (OtherException "Format not recognised.")
       else Raise FileNotFoundError)
    (fun _ _ _ => Ok tt).

(** A librosa whose two routines return their input. *)
Definition plain_librosa : librosa :=
  Librosa (fun _ y => Ok y) (fun y => Ok y).

Arguments float_of_int : simpl never.
Arguments int_truediv : simpl never.
Arguments main_options : simpl never.

(** * Properties *)

(** ** Rationals *)

Section Rationals.
Local Open Scope Qc_scope.

Lemma Qc_is_zero_true (x : Qc) : Qc_is_zero x = true <-> x = 0.
Proof.
  unfold Qc_is_zero. split.
  - intros H. apply Qc_is_canon. destruct x as [[n d] c]; simpl in *.
    destruct n; try discriminate. reflexivity.
  - intros ->. reflexivity.
Qed.

Lemma Qc_is_zero_false (x : Qc) : Qc_is_zero x = false <-> x <> 0.
Proof.
  rewrite <- Qc_is_zero_true. destruct (Qc_is_zero x); split; congruence.
Qed.

Lemma Qc_leb_le (x y : Qc) : Qc_leb x y = true <-> x <= y.
Proof.
  unfold Qc_leb. rewrite Qcle_alt.
  destruct (x ?= y); split; congruence.
Qed.

Lemma Qc_leb_gt (x y : Qc) : Qc_leb x y = false <-> y < x.
Proof.
  unfold Qc_leb.
  destruct (x ?= y) eqn:E; split; intros H; try discriminate; try reflexivity.
  - pose proof (proj1 (Qcgt_alt x y) H). congruence.
  - pose proof (proj1 (Qcgt_alt x y) H). congruence.
  - apply (proj2 (Qcgt_alt x y) E).
Qed.

Lemma Qc_abs_nonneg (x : Qc) : 0 <= Qc_abs x.
Proof.
  unfold Qc_abs. destruct (Qc_leb 0 x) eqn:E.
  - now apply Qc_leb_le.
  - apply Qc_leb_gt in E. apply Qclt_le_weak in E.
    apply Qcopp_le_compat in E. exact E.
Qed.

Lemma Qc_max_nonneg (x y : Qc) : 0 <= y -> 0 <= Qc_max x y.
Proof.
  intros Hy. unfold Qc_max. destruct (Qc_leb x y) eqn:E; [exact Hy|].
  apply Qc_leb_gt in E. apply Qclt_le_weak.
  eapply Qcle_lt_trans; eassumption.
Qed.

Lemma peak_nonneg (y : buffer) : 0 <= peak y.
Proof.
  induction y as [|x rest IH]; simpl.
  - apply Qcle_refl.
  - now apply Qc_max_nonneg.
Qed.

Lemma Qc_inv_nonneg (p : Qc) : 0 <= p -> 0 <= / p.
Proof.
  intros Hp.
  assert (H : (0 <= this p)%Q) by exact Hp.
  change (0 <= Qred (/ this p))%Q.
  rewrite Qred_correct. now apply Qinv_le_0_compat.
Qed.

Lemma Qc_mul_nonneg (x k : Qc) : 0 <= x -> 0 <= k -> 0 <= x * k.
Proof.
  intros Hx Hk. rewrite <- (Qcmult_0_l k).
  now apply Qcmult_le_compat_r.
Qed.

(** Scaling by a non-negative factor commutes with [Qc_abs],
    [Qc_max] and [peak]. *)
Lemma Qc_abs_scale (x k : Qc) : 0 <= k -> Qc_abs (x * k) = Qc_abs x * k.
Proof.
  intros Hk. unfold Qc_abs.
  destruct (Qc_leb 0 x) eqn:Ex; destruct (Qc_leb 0 (x * k)) eqn:Exk;
    try reflexivity.
  - apply Qc_leb_le in Ex. apply Qc_leb_gt in Exk.
    exfalso. eapply Qclt_not_le; [exact Exk|]. now apply Qc_mul_nonneg.
  - apply Qc_leb_gt in Ex. apply Qc_leb_le in Exk.
    assert (H : x * k <= 0).
    { rewrite <- (Qcmult_0_l k). apply Qcmult_le_compat_r; [|exact Hk].
      now apply Qclt_le_weak. }
    assert (E : x * k = 0) by now apply Qcle_antisym.
    rewrite E. destruct (Qcmult_integral _ _ E) as [->| ->]; ring.
  - ring.
Qed.

Lemma Qc_max_scale (a b k : Qc) :
  0 <= k -> Qc_max (a * k) (b * k) = Qc_max a b * k.
Proof.
  intros Hk. unfold Qc_max.
  destruct (Qc_leb a b) eqn:E; destruct (Qc_leb (a * k) (b * k)) eqn:Ek;
    try reflexivity.
  - apply Qc_leb_le in E. apply Qc_leb_gt in Ek.
    exfalso. eapply Qclt_not_le; [exact Ek|].
    now apply Qcmult_le_compat_r.
  - apply Qc_leb_gt in E. apply Qc_leb_le in Ek.
    apply Qcle_antisym; [|exact Ek].
    apply Qcmult_le_compat_r; [now apply Qclt_le_weak | exact Hk].
Qed.

Lemma peak_scale (y : buffer) (k : Qc) :
  0 <= k -> peak (map (fun x => x * k) y) = peak y * k.
Proof.
  intros Hk. induction y as [|x rest IH]; simpl.
  - ring.
  - rewrite IH, Qc_abs_scale, Qc_max_scale by exact Hk. reflexivity.
Qed.

Lemma map_div_one (y : buffer) : map (fun x => x / 1) y = y.
Proof.
  induction y as [|x rest IH]; simpl; [reflexivity|].
  rewrite IH. f_equal. rewrite <- (Qcmult_1_r x) at 2.
  unfold Qcdiv. f_equal.
Qed.

(** The spec-modelled normalization reaches peak 1 on a buffer whose
    peak is not 0, and keeps a buffer whose peak is 0. *)
Lemma peak_normalize_peak (y : buffer) :
  peak y <> 0 -> peak (peak_normalize y) = 1.
Proof.
  intros Hp. unfold peak_normalize.
  apply Qc_is_zero_false in Hp as Hz. rewrite Hz.
  unfold Qcdiv. rewrite peak_scale.
  - now apply Qcmult_inv_r.
  - apply Qc_inv_nonneg, peak_nonneg.
Qed.

Lemma peak_normalize_silent (y : buffer) :
  peak y = 0 -> peak_normalize y = y.
Proof.
  intros Hp. unfold peak_normalize.
  apply Qc_is_zero_true in Hp. now rewrite Hp.
Qed.

Lemma peak_normalize_fixed (y : buffer) :
  peak y = 1 -> peak_normalize y = y.
Proof.
  intros Hp. unfold peak_normalize. rewrite Hp. simpl.
  apply map_div_one.
Qed.


End Rationals.

(** ** Doubles

    The facts about binary64 arithmetic that the coefficient needs: an
    int other than zero converts to a normal double of magnitude at
    least 1 (or overflows), halving such a double is exact, and so is
    the quotient of the half by the double. *)








Lemma digits2_pos_bounds (p : positive) :
  2 ^ (Zpos (digits2_pos p) - 1) <= Zpos p < 2 ^ Zpos (digits2_pos p).
Proof.
  induction p as [p IH|p IH|]; cbn [digits2_pos].
  - rewrite Pos2Z.inj_succ.
    replace (Z.succ (Zpos (digits2_pos p)) - 1)
      with (Z.succ (Zpos (digits2_pos p) - 1)) by lia.
    rewrite !Z.pow_succ_r by lia. lia.
  - rewrite Pos2Z.inj_succ.
    replace (Z.succ (Zpos (digits2_pos p)) - 1)
      with (Z.succ (Zpos (digits2_pos p) - 1)) by lia.
    rewrite !Z.pow_succ_r by lia. lia.
  - simpl. lia.
Qed.

Lemma digits2_pos_unique (p : positive) (k : Z) :
  2 ^ (k - 1) <= Zpos p < 2 ^ k -> Zpos (digits2_pos p) = k.
Proof.
  intros [Hlo Hhi]. pose proof (digits2_pos_bounds p) as [Blo Bhi].
  assert (Hk : 0 < k).
  { destruct (Z.lt_trichotomy k 0) as [H|[H|H]]; [|subst|exact H].
    - rewrite Z.pow_neg_r in Hhi by exact H. lia.
    - simpl in Hhi. lia. }
  destruct (Z.lt_trichotomy (Zpos (digits2_pos p)) k) as [H|[H|H]];
    [|exact H|].
  - exfalso.
    assert (2 ^ Zpos (digits2_pos p) <= 2 ^ (k - 1))
      by (apply Z.pow_le_mono_r; lia).
    lia.
  - exfalso.
    assert (2 ^ k <= 2 ^ (Zpos (digits2_pos p) - 1))
      by (apply Z.pow_le_mono_r; lia).
    lia.
Qed.

Lemma shr_1_m (r : shr_record) :
  0 <= shr_m r -> shr_m (shr_1 r) = shr_m r / 2.
Proof.
  destruct r as [m b s]. cbn [shr_m]. intros Hm.
  rewrite <- Z.div2_div.
  destruct m as [|[p|p|]|p]; cbn [shr_1 shr_m]; try reflexivity; lia.
Qed.

Lemma iter_shr_1_m (n : positive) (r : shr_record) :
  0 <= shr_m r ->
  shr_m (SpecFloat.iter_pos shr_1 n r) = shr_m r / 2 ^ Zpos n.
Proof.
  revert r. induction n as [n IH|n IH|]; intros r Hr; cbn [SpecFloat.iter_pos].
  - assert (H1 : 0 <= shr_m (shr_1 r)).
    { rewrite shr_1_m by exact Hr. apply Z.div_pos; lia. }
    assert (H2 : 0 <= shr_m (SpecFloat.iter_pos shr_1 n (shr_1 r))).
    { rewrite IH by exact H1. apply Z.div_pos; [exact H1|].
      apply Z.pow_pos_nonneg; lia. }
    rewrite IH by exact H2. rewrite IH by exact H1.
    rewrite shr_1_m by exact Hr.
    assert (Hp : 0 < 2 ^ Zpos n) by (apply Z.pow_pos_nonneg; lia).
    rewrite !Z.div_div by lia.
    assert (E : 2 ^ Zpos n~1 = 2 * 2 ^ Zpos n * 2 ^ Zpos n).
    { rewrite <- Z.mul_assoc, <- Z.pow_add_r by lia.
      rewrite <- Z.pow_succ_r by lia. f_equal. lia. }
    rewrite E. f_equal. ring.
  - assert (H2 : 0 <= shr_m (SpecFloat.iter_pos shr_1 n r)).
    { rewrite IH by exact Hr. apply Z.div_pos; [exact Hr|].
      apply Z.pow_pos_nonneg; lia. }
    rewrite IH by exact H2. rewrite IH by exact Hr.
    assert (Hp : 0 < 2 ^ Zpos n) by (apply Z.pow_pos_nonneg; lia).
    rewrite !Z.div_div by lia.
    assert (E : 2 ^ Zpos n~0 = 2 ^ Zpos n * 2 ^ Zpos n).
    { rewrite <- Z.pow_add_r by lia. f_equal. lia. }
    now rewrite E.
  - rewrite shr_1_m by exact Hr. reflexivity.
Qed.

Lemma shr_m_e (r : shr_record) (e n : Z) :
  0 <= shr_m r -> 0 <= n ->
  shr_m (fst (shr r e n)) = shr_m r / 2 ^ n /\ snd (shr r e n) = e + n.
Proof.
  intros Hr Hn. destruct n as [|p|p]; cbn [shr fst snd]; try lia.
  - rewrite Z.div_1_r. lia.
  - split; [now apply iter_shr_1_m|reflexivity].
Qed.

Lemma round_nearest_even_bounds (m : Z) (l : location) :
  m <= round_nearest_even m l <= m + 1.
Proof.
  destruct l as [|[]]; cbn [round_nearest_even]; try lia.
  destruct (Z.even m); lia.
Qed.

Lemma fexp_normal (k : Z) : -1021 <= k -> fexp prec emax k = k - 53.
Proof. unfold fexp, SpecFloat.emin, prec, emax. lia. Qed.

(** Rounding a mantissa of at least 53 bits whose value is at least 1:
    the result overflows or is a normal double of magnitude at least
    1. *)
Lemma binary_round_aux_normal (sx : bool) (mz : positive) (ez : Z) :
  53 <= Zpos (digits2_pos mz) ->
  -52 <= Zpos (digits2_pos mz) + ez - 53 ->
  binary_round_aux prec emax sx (Zpos mz) ez loc_Exact = S754_infinity sx \/
  exists m e,
    binary_round_aux prec emax sx (Zpos mz) ez loc_Exact = S754_finite sx m e
    /\ bounded prec emax m e = true /\ -52 <= e.
Proof.
  intros HD He.
  pose proof (digits2_pos_bounds mz) as [Blo Bhi].
  set (D := Zpos (digits2_pos mz)) in *.
  unfold binary_round_aux, shr_fexp. cbn [Zdigits2]. fold D.
  rewrite fexp_normal by lia.
  replace (D + ez - 53 - ez) with (D - 53) by lia.
  destruct (shr_m_e (shr_record_of_loc (Zpos mz) loc_Exact) ez (D - 53))
    as [Hm1 He1]; [cbn; lia|lia|].
  destruct (shr (shr_record_of_loc (Zpos mz) loc_Exact) ez (D - 53))
    as [mrs' e'] eqn:E1.
  cbn [fst snd] in Hm1, He1. cbn [shr_record_of_loc shr_m] in Hm1.
  assert (Hpow : 0 < 2 ^ (D - 53)) by (apply Z.pow_pos_nonneg; lia).
  assert (Hsplit : 2 ^ D = 2 ^ 53 * 2 ^ (D - 53)).
  { rewrite <- Z.pow_add_r by lia. f_equal. lia. }
  assert (Hsplit' : 2 ^ (D - 1) = 2 ^ 52 * 2 ^ (D - 53)).
  { rewrite <- Z.pow_add_r by lia. f_equal. lia. }
  assert (Hlo1 : 2 ^ 52 <= shr_m mrs').
  { rewrite Hm1. apply Z.div_le_lower_bound; [exact Hpow|].
    rewrite Z.mul_comm, <- Hsplit'. exact Blo. }
  assert (Hhi1 : shr_m mrs' < 2 ^ 53).
  { rewrite Hm1. apply Z.div_lt_upper_bound; [exact Hpow|].
    rewrite Z.mul_comm, <- Hsplit. exact Bhi. }
  pose proof (round_nearest_even_bounds (shr_m mrs') (loc_of_shr_record mrs'))
    as [Rlo Rhi].
  set (m1 := round_nearest_even (shr_m mrs') (loc_of_shr_record mrs')) in *.
  assert (Hm1pos : 0 < m1)
    by (change (2 ^ 52) with 4503599627370496 in Hlo1; lia).
  destruct m1 as [|p1|p1] eqn:Ep1; try lia.
  cbn [Zdigits2].
  assert (HD1 : Zpos (digits2_pos p1) = 53 \/
                (Zpos (digits2_pos p1) = 54 /\ Zpos p1 = 2 ^ 53)).
  { destruct (Z.lt_ge_cases (Zpos p1) (2 ^ 53)) as [H|H].
    - left. apply digits2_pos_unique. change (53 - 1) with 52. lia.
    - right. assert (Hp : Zpos p1 = 2 ^ 53) by lia. split; [|exact Hp].
      apply digits2_pos_unique. rewrite Hp. change (54 - 1) with 53.
      split; [lia|]. apply Z.pow_lt_mono_r; lia. }
  destruct HD1 as [HD1|[HD1 Hp1]]; rewrite HD1.
  - rewrite fexp_normal by lia.
    replace (53 + e' - 53 - e') with 0 by lia.
    cbn [shr shr_record_of_loc shr_m].
    destruct (e' <=? emax - prec) eqn:Ele; [right|now left].
    exists p1, e'. split; [reflexivity|]. split; [|lia].
    unfold bounded, canonical_mantissa. rewrite HD1, fexp_normal by lia.
    rewrite Ele. replace (53 + e' - 53) with e' by lia.
    now rewrite Z.eqb_refl.
  - rewrite fexp_normal by lia.
    replace (54 + e' - 53 - e') with 1 by lia.
    destruct (shr_m_e (shr_record_of_loc (Zpos p1) loc_Exact) e' 1)
      as [Hm2 He2]; [cbn; lia|lia|].
    destruct (shr (shr_record_of_loc (Zpos p1) loc_Exact) e' 1)
      as [mrs'' e''] eqn:E2.
    cbn [fst snd] in Hm2, He2. cbn [shr_record_of_loc shr_m] in Hm2.
    rewrite Hp1 in Hm2. change (2 ^ 53 / 2 ^ 1) with 4503599627370496 in Hm2.
    rewrite Hm2.
    destruct (e'' <=? emax - prec) eqn:Ele; [right|now left].
    exists 4503599627370496%positive, e''. split; [reflexivity|].
    split; [|lia].
    unfold bounded, canonical_mantissa.
    change (Zpos (digits2_pos 4503599627370496)) with 53.
    rewrite fexp_normal by lia.
    rewrite Ele. replace (53 + e'' - 53) with e'' by lia.
    now rewrite Z.eqb_refl.
Qed.

Lemma digits2_pos_iter_xO (k p : positive) :
  Zpos (digits2_pos (Pos.iter xO p k)) = Zpos (digits2_pos p) + Zpos k.
Proof.
  induction k as [|k IH] using Pos.peano_ind.
  - cbn [Pos.iter digits2_pos]. lia.
  - rewrite Pos.iter_succ. cbn [digits2_pos]. lia.
Qed.

Lemma binary_round_int (sx : bool) (p : positive) :
  binary_round prec emax sx p 0 = S754_infinity sx \/
  exists m e,
    binary_round prec emax sx p 0 = S754_finite sx m e /\
    bounded prec emax m e = true /\ -52 <= e.
Proof.
  unfold binary_round, shl_align.
  pose proof (Pos2Z.is_pos (digits2_pos p)) as Hd.
  rewrite Z.add_0_r, fexp_normal by lia. rewrite Z.sub_0_r.
  destruct (Zpos (digits2_pos p) - 53) as [|k|k] eqn:E.
  - apply binary_round_aux_normal; lia.
  - apply binary_round_aux_normal; lia.
  - apply binary_round_aux_normal; rewrite digits2_pos_iter_xO; lia.
Qed.

(** [float(n)] of an int other than 0, when it does not overflow, is a
    normal double whose exponent is at least that of 1. *)
Lemma float_of_int_normal (n : Z) (d : float) :
  n <> 0 -> float_of_int n = Ok d ->
  exists sg m e,
    Prim2SF d = S754_finite sg m e /\
    bounded prec emax m e = true /\ -52 <= e.
Proof.
  intros Hn. unfold float_of_int.
  assert (H : exists sx,
            binary_normalize prec emax n 0 false = S754_infinity sx \/
            exists m e,
              binary_normalize prec emax n 0 false = S754_finite sx m e /\
              bounded prec emax m e = true /\ -52 <= e).
  { destruct n as [|p|p]; [congruence| |].
    - exists false. apply binary_round_int.
    - exists true. apply binary_round_int. }
  destruct H as [sx [H|(m & e & H & Hb & He)]]; rewrite H.
  - destruct sx; discriminate.
  - pose proof (Prim2SF_SF2Prim (S754_finite sx m e) Hb) as Hp.
    destruct (is_infinity (SF2Prim (S754_finite sx m e))); [discriminate|].
    intros [= <-]. exists sx, m, e. split; [exact Hp|now split].
Qed.

Lemma float_of_int_zero : float_of_int 0 = Ok 0%float.
Proof. reflexivity. Qed.

Lemma float_of_int_nonzero (n : Z) (d : float) :
  n <> 0 -> float_of_int n = Ok d -> (d =? 0)%float = false.
Proof.
  intros Hn Hd.
  destruct (float_of_int_normal n d Hn Hd) as (sg & m & e & Hp & _ & _).
  rewrite FloatAxioms.eqb_spec, Hp. destruct sg; reflexivity.
Qed.



Lemma Qc_of_float_half : Qc_of_float float_0_5 = Some one_half.
Proof.
  unfold Qc_of_float. change (Prim2SF float_0_5) with SF_half.
  cbn [SF_half]. f_equal. apply Qc_is_canon. reflexivity.
Qed.


Lemma py_truediv_float (x d : float) (n : Z) :
  n <> 0 -> float_of_int n = Ok d ->
  py_truediv (VFloat x) n = Ok (x / d)%float.
Proof.
  intros Hn Hd. unfold py_truediv. rewrite Hd. cbn [result_bind].
  now rewrite (float_of_int_nonzero n d Hn Hd).
Qed.


(** The flags of the spec and the truth value the code computes. *)
Lemma truthy_false_iff (v : pyval) : truthy v = false <-> falsy v.
Proof.
  unfold falsy. destruct v as [|b|n|x|s]; simpl.
  - split; [now left|reflexivity].
  - split.
    + intros ->. right. now left.
    + intros [H|[H|[H|[(x & H & _)|H]]]]; congruence.
  - split.
    + intros H. apply Bool.negb_false_iff, Z.eqb_eq in H. subst.
      right. right. now left.
    + intros [H|[H|[H|[(x & H & _)|H]]]]; try discriminate.
      injection H as ->. reflexivity.
  - split.
    + intros H. apply Bool.negb_false_iff in H.
      right. right. right. left. now exists x.
    + intros [H|[H|[H|[(x' & H & Hx)|H]]]]; try discriminate.
      injection H as ->. now rewrite Hx.
  - split.
    + intros H. destruct s; [|discriminate]. now repeat right.
    + intros [H|[H|[H|[(x & H & _)|H]]]]; try discriminate.
      injection H as ->. reflexivity.
Qed.

Lemma enabled_truthy (options : gmap string pyval) (key : string) :
  enabled options key -> truthy (dict_get options key) = true.
Proof.
  intros (v & Hv & Hf). unfold dict_get. rewrite Hv. simpl.
  destruct (truthy v) eqn:E; [reflexivity|].
  exfalso. now apply Hf, truthy_false_iff.
Qed.

Lemma disabled_truthy (options : gmap string pyval) (key : string) :
  disabled options key -> truthy (dict_get options key) = false.
Proof.
  unfold dict_get. intros [H|(v & Hv & Hf)].
  - now rewrite H.
  - rewrite Hv. simpl. now apply truthy_false_iff.
Qed.

(** ** Strings and the prompt loop *)

Lemma lstrip_blank (s : string) : blank s = true -> lstrip s = "".
Proof.
  unfold blank. induction s as [|c s IH]; simpl; [reflexivity|].
  intros H. apply andb_prop in H as [Hc Hs]. rewrite Hc. now apply IH.
Qed.

Lemma strip_blank (s : string) : blank s = true -> strip s = "".
Proof. intros H. unfold strip. now rewrite lstrip_blank. Qed.

Lemma loop_rejects_empty (prompt : string) (rest : list string) :
  get_user_input_loop prompt ("" :: rest) =
  (let '(r, rest', evs) := get_user_input_loop prompt rest in
   (r, rest', EPrompt prompt :: EPrint "Please enter a value." :: evs)).
Proof. reflexivity. Qed.

Lemma loop_accepts_nonempty (prompt s : string) (rest : list string) :
  s <> "" ->
  get_user_input_loop prompt (s :: rest) =
  (Ok (strip s), rest, [EPrompt prompt]).
Proof. intros Hs. destruct s; [congruence|reflexivity]. Qed.

(** Empty lines are each answered with the reminder and a new prompt;
    the first line that is not empty ends the loop. *)
Lemma loop_skips_empty_lines (prompt s : string) (n : nat)
    (rest : list string) :
  s <> "" ->
  get_user_input_loop prompt (replicate n "" ++ s :: rest) =
  (Ok (strip s), rest,
   concat (replicate n [EPrompt prompt; EPrint "Please enter a value."])
   ++ [EPrompt prompt]).
Proof.
  intros Hs. induction n as [|n IH].
  - simpl. now apply loop_accepts_nonempty.
  - change (replicate (S n) "" ++ s :: rest)
      with ("" :: (replicate n "" ++ s :: rest)).
    rewrite loop_rejects_empty, IH. reflexivity.
Qed.

(** When the typed lines run out before a line that is not empty, the
    loop ends with the [EOFError] of [input]. *)
Lemma loop_end_of_input (prompt : string) (n : nat) :
  fst (fst (get_user_input_loop prompt (replicate n ""))) = Raise EOFError.
Proof.
  induction n as [|n IH]; [reflexivity|].
  change (replicate (S n) "") with ("" :: replicate n "").
  rewrite loop_rejects_empty.
  destruct (get_user_input_loop prompt (replicate n "")) as [[r rest'] evs].
  exact IH.
Qed.

(** A line of whitespace passes the emptiness test and comes back as the
    empty string. *)
Lemma loop_accepts_whitespace (prompt s : string) (rest : list string) :
  s <> "" -> blank s = true ->
  get_user_input_loop prompt (s :: rest) = (Ok "", rest, [EPrompt prompt]).
Proof.
  intros Hs Hb. rewrite loop_accepts_nonempty by exact Hs.
  now rewrite strip_blank.
Qed.

Lemma written_app (l1 l2 : list event) :
  written (l1 ++ l2) = written l1 ++ written l2.
Proof.
  induction l1 as [|e l1 IH]; simpl; [reflexivity|].
  destruct e; simpl; now rewrite IH.
Qed.

(** The prompt loop never calls the file writer. *)
Lemma loop_writes_nothing (prompt : string) (lines : list string) :
  written (snd (get_user_input_loop prompt lines)) = [].
Proof.
  induction lines as [|s rest IH]; simpl; [reflexivity|].
  destruct (str_is_empty s); simpl; [|reflexivity].
  destruct (get_user_input_loop prompt rest) as [[r rest'] evs].
  simpl in *. exact IH.
Qed.

Lemma read_audio_failure (w : world) (filepath : string) (c : console)
    (e : exn) :
  decode w (resolve w filepath) = Raise e ->
  read_audio w filepath c =
  (Ok (OVal VNone),
   Console (pending c)
     (shown c ++ [reading_line w filepath; failure_line w filepath e])).
Proof.
  intros H. unfold read_audio, resolve in *. unfold bind, print, emit, ret.
  simpl. rewrite H.
  destruct e; simpl; rewrite <- app_assoc; reflexivity.
Qed.

Lemma read_audio_success (w : world) (filepath : string) (c : console)
    (samples : buffer) (rate : Z) :
  decode w (resolve w filepath) = Ok (samples, rate) ->
  read_audio w filepath c =
  (Ok (OTuple [OArray samples; OVal (VInt rate)]),
   Console (pending c) (shown c ++ [reading_line w filepath])).
Proof.
  intros H. unfold read_audio, resolve in *. unfold bind, print, emit, ret.
  simpl. rewrite H. reflexivity.
Qed.

Lemma run_main_steps (w : world) (L : librosa) (typed : list string) :
  run_main w L typed = run_by_steps w L typed.
Proof.
  unfold run_main, run_by_steps, main.
  unfold bind at 1. unfold get_user_input at 1. simpl pending. simpl shown.
  fold prompt_in.
  destruct (get_user_input_loop prompt_in typed) as [[r rest] evs].
  destruct r as [path|e]; [|reflexivity].
  unfold bind at 1.
  destruct (decode w (resolve w path)) as [[samples rate]|e] eqn:D.
  - rewrite (read_audio_success _ _ _ _ _ D). simpl.
    unfold bind, lift. simpl. unfold main_process.
    destruct (main_options rate) as [options|e]; [|reflexivity].
    cbn [result_bind].
    destruct (process_audio L samples rate options) as [d|e];
      [|reflexivity].
    unfold get_user_input. simpl. fold prompt_out.
    destruct (get_user_input_loop prompt_out rest) as [[r' rest'] evs'].
    destruct r' as [out|e]; [|reflexivity].
    unfold write_audio, bind, emit, lift, print, emit, ret. simpl.
    destruct (sf_write w out d rate) as [u|e]; reflexivity.
  - rewrite (read_audio_failure _ _ _ _ D). reflexivity.
Qed.

(** ** Reading failures (C1, C2) and the sample rate (C6) *)

Lemma read_audio_none_inv (w : world) (filepath : string) (c c1 : console) :
  read_audio w filepath c = (Ok (OVal VNone), c1) ->
  exists e,
    decode w (resolve w filepath) = Raise e /\
    c1 = Console (pending c)
           (shown c ++ [reading_line w filepath; failure_line w filepath e]).
Proof.
  intros H.
  destruct (decode w (resolve w filepath)) as [[samples rate]|e] eqn:D.
  - rewrite (read_audio_success _ _ _ _ _ D) in H. discriminate.
  - rewrite (read_audio_failure _ _ _ _ D) in H. exists e. split; congruence.
Qed.

Lemma written_failure_line (w : world) (filepath : string) (e : exn) :
  written [reading_line w filepath; failure_line w filepath e] = [].
Proof. destruct e; reflexivity. Qed.

(** C1: when decoding the resolved input path raises (file missing or
    any other exception), [read_audio] prints its error line and returns
    [None], and the run of [main] ends with an exception without a single
    call of the file writer. *)
Theorem read_failure_writes_nothing (w : world) (L : librosa)
    (typed : list string) (path : string) (rest : list string)
    (evs : list event) (e : exn) :
  get_user_input_loop prompt_in typed = (Ok path, rest, evs) ->
  decode w (resolve w path) = Raise e ->
  read_audio w path (Console rest evs) =
    (Ok (OVal VNone),
     Console rest (evs ++ [reading_line w path; failure_line w path e])) /\
  (exists e' c',
     run_main w L typed = (Raise e', c') /\ written (shown c') = []).
Proof.
  intros Hin Hdec. split.
  - now rewrite (read_audio_failure _ _ _ _ Hdec).
  - rewrite run_main_steps. unfold run_by_steps. rewrite Hin, Hdec.
    eexists _, _. split; [reflexivity|]. simpl.
    rewrite written_app, written_failure_line, app_nil_r.
    pose proof (loop_writes_nothing prompt_in typed) as Hw.
    now rewrite Hin in Hw.
Qed.

Lemma read_failure_writes_nothing_witness :
  (get_user_input_loop prompt_in ["nope.wav"] =
     (Ok "nope.wav", [], [EPrompt prompt_in]) /\
   decode demo_world (resolve demo_world "nope.wav") =
     Raise FileNotFoundError) /\
  (read_audio demo_world "nope.wav" (Console [] [EPrompt prompt_in]) =
     (Ok (OVal VNone),
      Console []
        ([EPrompt prompt_in] ++
         [reading_line demo_world "nope.wav";
          failure_line demo_world "nope.wav" FileNotFoundError])) /\
   (exists e' c',
      run_main demo_world plain_librosa ["nope.wav"] = (Raise e', c') /\
      written (shown c') = [])).
Proof.
  split; [split; reflexivity|].
  apply (read_failure_writes_nothing demo_world plain_librosa ["nope.wav"]
           "nope.wav" [] [EPrompt prompt_in] FileNotFoundError);
    reflexivity.
Defined.

(** C2: unpacking [None] raises [TypeError]; so whenever [read_audio]
    returns [None] the run of [main] ends with that uncaught [TypeError]
    right after the call, and no run at all ends through the [return] of
    the guard on the next line. *)
Theorem none_result_crashes_main (w : world) (L : librosa) :
  unpack2 (OVal VNone) = Raise TypeError /\
  (forall typed path rest evs c1,
     get_user_input_loop prompt_in typed = (Ok path, rest, evs) ->
     read_audio w path (Console rest evs) = (Ok (OVal VNone), c1) ->
     run_main w L typed = (Raise TypeError, c1)) /\
  (forall typed, fst (run_main w L typed) <> Ok ReturnedEarly).
Proof.
  split; [reflexivity|]. split.
  - intros typed path rest evs c1 Hin Hread.
    apply read_audio_none_inv in Hread as (e & Hdec & ->).
    rewrite run_main_steps. unfold run_by_steps. now rewrite Hin, Hdec.
  - intros typed. rewrite run_main_steps. unfold run_by_steps.
    destruct (get_user_input_loop prompt_in typed) as [[[path|e] rest] evs];
      [|discriminate].
    destruct (decode w (resolve w path)) as [[samples rate]|e];
      [|discriminate].
    simpl.
    destruct (main_process L samples rate) as [d|e]; [|discriminate].
    destruct (get_user_input_loop prompt_out rest) as [[[out|e] rest'] evs'];
      [|discriminate].
    destruct (sf_write w out d rate); discriminate.
Qed.

Lemma none_result_crashes_main_witness :
  (get_user_input_loop prompt_in ["bad.wav"; "out.wav"] =
     (Ok "bad.wav", ["out.wav"], [EPrompt prompt_in]) /\
   read_audio demo_world "bad.wav" (Console ["out.wav"] [EPrompt prompt_in]) =
     (Ok (OVal VNone),
      Console ["out.wav"]
        [EPrompt prompt_in; EPrint "Reading audio file from: bad.wav";
         EPrint "Error: Format not recognised."])) /\
  run_main demo_world plain_librosa ["bad.wav"; "out.wav"] =
    (Raise TypeError,
     Console ["out.wav"]
       [EPrompt prompt_in; EPrint "Reading audio file from: bad.wav";
        EPrint "Error: Format not recognised."]).
Proof.
  split; [split; reflexivity|].
  apply (proj1 (proj2 (none_result_crashes_main demo_world plain_librosa))
           ["bad.wav"; "out.wav"] "bad.wav" ["out.wav"] [EPrompt prompt_in]);
    reflexivity.
Defined.

(** A processed buffer comes from options that were built and a call of
    [process_audio] that returned. *)
Lemma main_process_ok_inv (L : librosa) (samples d : buffer) (rate : Z) :
  main_process L samples rate = Ok d ->
  exists options,
    main_options rate = Ok options /\
    process_audio L samples rate options = Ok d.
Proof.
  unfold main_process.
  destruct (main_options rate) as [options|e]; [|discriminate].
  intros H. now exists options.
Qed.

(** C6: every call of the file writer in a run of [main] carries the
    sample rate that [read_audio] returned on the first typed path, and
    the data written is what [process_audio] made of the samples read at
    that same rate, under the options [main] builds from it;
    [process_audio] returns a buffer only. *)
Theorem sample_rate_reaches_writer (w : world) (L : librosa)
    (typed : list string) (out : string) (d : buffer) (r : Z) :
  In (out, d, r) (written (shown (snd (run_main w L typed)))) ->
  exists path rest evs samples,
    get_user_input_loop prompt_in typed = (Ok path, rest, evs) /\
    fst (read_audio w path (Console rest evs)) =
      Ok (OTuple [OArray samples; OVal (VInt r)]) /\
    exists options,
      main_options r = Ok options /\
      process_audio L samples r options = Ok d.
Proof.
  rewrite run_main_steps. unfold run_by_steps.
  pose proof (loop_writes_nothing prompt_in typed) as Hw1.
  destruct (get_user_input_loop prompt_in typed) as [[[path|e] rest] evs];
    simpl in Hw1; [|simpl; rewrite Hw1; intros []].
  destruct (decode w (resolve w path)) as [[samples rate]|e] eqn:D.
  2:{ simpl. rewrite written_app, written_failure_line, Hw1. intros []. }
  simpl.
  destruct (main_process L samples rate) as [d'|e] eqn:P.
  2:{ simpl. rewrite written_app, Hw1. intros []. }
  pose proof (loop_writes_nothing prompt_out rest) as Hw2.
  destruct (get_user_input_loop prompt_out rest) as [[[out'|e] rest'] evs'];
    simpl in Hw2.
  2:{ simpl. rewrite !written_app, Hw1, Hw2. intros []. }
  assert (Hone : forall tail, written tail = [] ->
            In (out, d, r)
              (written (((evs ++ [reading_line w path]) ++ evs') ++
                        [EWrite out' d' rate] ++ tail)) ->
            (out, d, r) = (out', d', rate)).
  { intros tail Ht. rewrite !written_app, Hw1, Hw2, Ht. simpl.
    intros [H|[]]. now symmetry. }
  intros Hin.
  assert (E : (out, d, r) = (out', d', rate)).
  { destruct (sf_write w out' d' rate); simpl in Hin.
    - apply (Hone [EPrint "Audio processing complete!"]); [reflexivity|].
      now rewrite <- app_assoc in Hin.
    - apply (Hone []); [reflexivity|]. exact Hin. }
  inversion E; subst. exists path, rest, evs, samples.
  split; [reflexivity|]. split; [|exact (main_process_ok_inv _ _ _ _ P)].
  now rewrite (read_audio_success _ _ _ _ _ D).
Qed.

Lemma sample_rate_reaches_writer_witness :
  In ("out.wav", [one_half; (- one_tenth)%Qc], 8000)
    (written (shown (snd (run_main demo_world plain_librosa
                            ["a.wav"; "out.wav"])))) /\
  exists path rest evs samples,
    get_user_input_loop prompt_in ["a.wav"; "out.wav"] =
      (Ok path, rest, evs) /\
    fst (read_audio demo_world path (Console rest evs)) =
      Ok (OTuple [OArray samples; OVal (VInt 8000)]) /\
    exists options,
      main_options 8000 = Ok options /\
      process_audio plain_librosa samples 8000 options =
        Ok [one_half; (- one_tenth)%Qc].
Proof.
  assert (H : In ("out.wav", [one_half; (- one_tenth)%Qc], 8000)
                (written (shown (snd (run_main demo_world plain_librosa
                                        ["a.wav"; "out.wav"]))))).
  { left. reflexivity. }
  split; [exact H|].
  exact (sample_rate_reaches_writer demo_world plain_librosa
           ["a.wav"; "out.wav"] "out.wav" [one_half; (- one_tenth)%Qc] 8000 H).
Defined.

(** ** The prompt (C5) *)

(** C5: the loop tests the typed line for emptiness before stripping it,
    so a line of three spaces, which is blank, is accepted at once and
    the value returned is the empty string. *)
Theorem whitespace_line_returned_empty (prompt : string)
    (rest : list string) (before : list event) :
  blank "   " = true /\
  get_user_input prompt (Console ("   " :: rest) before) =
    (Ok "", Console rest (before ++ [EPrompt prompt])).
Proof. split; reflexivity. Qed.

(** ** The effect chain (C3, C4) *)

Lemma process_audio_chain (L : librosa) (y : buffer) (sample_rate : Z)
    (options : gmap string pyval) :
  process_audio L y sample_rate options = effect_chain L y sample_rate options.
Proof.
  unfold process_audio, effect_chain, emphasis_step, normalize_step.
  destruct (truthy (dict_get options "speech_emphasis")); simpl.
  - destruct (float_times_int float_0_1 sample_rate) as [dflt|e]; simpl;
      [|reflexivity].
    destruct (py_truediv _ sample_rate) as [coef|e]; simpl; [|reflexivity].
    destruct (preemphasis L coef y) as [y1|e]; simpl; [|reflexivity].
    destruct (truthy (dict_get options "normalize")); simpl; [|reflexivity].
    destruct (normalize L y1); reflexivity.
  - destruct (truthy (dict_get options "normalize")); simpl; [|reflexivity].
    destruct (normalize L y); reflexivity.
Qed.

(** With the emphasis flag on, the default computed and the division
    done, the filter is called with the quotient. *)
Lemma process_audio_emphasised (L : librosa) (y : buffer) (sample_rate : Z)
    (options : gmap string pyval) (dflt coef : float) :
  truthy (dict_get options "speech_emphasis") = true ->
  float_times_int float_0_1 sample_rate = Ok dflt ->
  py_truediv (default (VFloat dflt) (options !! "rolloff_freq")) sample_rate
    = Ok coef ->
  process_audio L y sample_rate options =
    (let? y1 := preemphasis L coef y in normalize_step L y1 options).
Proof.
  intros Hs Hd Hc. rewrite process_audio_chain.
  unfold effect_chain, emphasis_step, dict_get_default.
  rewrite Hs, Hd. cbn [result_bind]. now rewrite Hc.
Qed.

Lemma float_times_int_ok (x d : float) (n : Z) :
  float_of_int n = Ok d -> float_times_int x n = Ok (x * d)%float.
Proof. intros Hd. unfold float_times_int. now rewrite Hd. Qed.

(** C3: the two steps run exactly when their options are enabled, in
    the fixed order pre-emphasis then normalization. A step is enabled
    when its key is present with a value Python counts as true; an
    absent key or a value [None], [False], 0, 0.0 or [""] disables it.
    With both disabled the input buffer is returned as it is, and two
    option mappings that agree on [speech_emphasis], [rolloff_freq] and
    [normalize] give the same result whatever their other keys hold. *)
Theorem process_audio_applies_enabled_steps (L : librosa) (y : buffer)
    (sample_rate : Z) (options : gmap string pyval) :
  (disabled options "speech_emphasis" -> disabled options "normalize" ->
   process_audio L y sample_rate options = Ok y) /\
  (disabled options "speech_emphasis" -> enabled options "normalize" ->
   process_audio L y sample_rate options = normalize L y) /\
  (enabled options "speech_emphasis" ->
   forall dflt coef : float,
     float_times_int float_0_1 sample_rate = Ok dflt ->
     py_truediv (default (VFloat dflt) (options !! "rolloff_freq"))
       sample_rate = Ok coef ->
     (disabled options "normalize" ->
      process_audio L y sample_rate options = preemphasis L coef y) /\
     (enabled options "normalize" ->
      process_audio L y sample_rate options =
        (let? y1 := preemphasis L coef y in normalize L y1))) /\
  (forall options' : gmap string pyval,
     options' !! "speech_emphasis" = options !! "speech_emphasis" ->
     options' !! "rolloff_freq" = options !! "rolloff_freq" ->
     options' !! "normalize" = options !! "normalize" ->
     process_audio L y sample_rate options' =
     process_audio L y sample_rate options).
Proof.
  split; [|split; [|split]].
  - intros Hs Hn. rewrite process_audio_chain.
    unfold effect_chain, emphasis_step, normalize_step.
    now rewrite (disabled_truthy _ _ Hs), (disabled_truthy _ _ Hn).
  - intros Hs Hn. rewrite process_audio_chain.
    unfold effect_chain, emphasis_step, normalize_step.
    rewrite (disabled_truthy _ _ Hs). cbn [result_bind].
    now rewrite (enabled_truthy _ _ Hn).
  - intros Hs dflt coef Hd Hc.
    rewrite (process_audio_emphasised L y sample_rate options dflt coef
               (enabled_truthy _ _ Hs) Hd Hc).
    unfold normalize_step. split; intros Hn.
    + rewrite (disabled_truthy _ _ Hn).
      now destruct (preemphasis L coef y).
    + now rewrite (enabled_truthy _ _ Hn).
  - intros options' Hs Hr Hn. rewrite !process_audio_chain.
    unfold effect_chain, emphasis_step, normalize_step,
      dict_get, dict_get_default.
    now rewrite Hs, Hr, Hn.
Qed.

Lemma process_audio_applies_enabled_steps_witness :
  let y : buffer := [one_half] in
  let off : gmap string pyval :=
    <["compress" := VBool true]> (<["normalize" := VInt 0]> ∅) in
  let norm_only : gmap string pyval :=
    <["normalize" := VStr "yes"]> (<["speech_emphasis" := VNone]> ∅) in
  let emph_only : gmap string pyval :=
    <["speech_emphasis" := VInt 1]>
      (<["rolloff_freq" := VFloat 11025]> ∅) in
  let both : gmap string pyval :=
    <["speech_emphasis" := VBool true]> (<["normalize" := VBool true]> ∅) in
  let both' : gmap string pyval :=
    <["volume" := VStr "loud"]> (<["noise_reduction" := VBool true]> both) in
  process_audio marking_librosa y 22050 off = Ok y /\
  process_audio marking_librosa y 22050 norm_only = Ok (y ++ [1%Qc]) /\
  (process_audio marking_librosa y 22050 emph_only =
     preemphasis marking_librosa float_0_5 y /\
   preemphasis marking_librosa float_0_5 y = Ok (one_half :: y)) /\
  process_audio marking_librosa y 22050 both =
    (let? y1 := preemphasis marking_librosa (float_0_1 * 22050 / 22050)%float y
     in normalize marking_librosa y1) /\
  process_audio marking_librosa y 22050 both' =
    process_audio marking_librosa y 22050 both.
Proof.
  intros y off norm_only emph_only both both'.
  assert (Ftrue : ~ falsy (VBool true)).
  { intros [H|[H|[H|[(x & H & _)|H]]]]; discriminate H. }
  assert (Fyes : ~ falsy (VStr "yes")).
  { intros [H|[H|[H|[(x & H & _)|H]]]]; discriminate H. }
  assert (Fone : ~ falsy (VInt 1)).
  { intros [H|[H|[H|[(x & H & _)|H]]]]; discriminate H. }
  assert (Fzero : falsy (VInt 0)) by (right; right; now left).
  assert (Fnone : falsy VNone) by now left.
  split; [|split; [|split; [|split]]].
  - apply (proj1 (process_audio_applies_enabled_steps marking_librosa y
                    22050 off)).
    + left. reflexivity.
    + right. exists (VInt 0). split; [reflexivity|exact Fzero].
  - apply (proj1 (proj2 (process_audio_applies_enabled_steps marking_librosa
                           y 22050 norm_only))).
    + right. exists VNone. split; [reflexivity|exact Fnone].
    + exists (VStr "yes"). split; [reflexivity|exact Fyes].
  - assert (Hs : enabled emph_only "speech_emphasis").
    { exists (VInt 1). split; [reflexivity|exact Fone]. }
    split; [|cbn [preemphasis marking_librosa]; now rewrite Qc_of_float_half].
    apply (proj1 (proj1 (proj2 (proj2 (process_audio_applies_enabled_steps
                    marking_librosa y 22050 emph_only))) Hs
                    (float_0_1 * 22050)%float float_0_5
                    eq_refl eq_refl)).
    left. reflexivity.
  - assert (Hs : enabled both "speech_emphasis").
    { exists (VBool true). split; [reflexivity|exact Ftrue]. }
    apply (proj2 (proj1 (proj2 (proj2 (process_audio_applies_enabled_steps
                    marking_librosa y 22050 both))) Hs
                    (float_0_1 * 22050)%float
                    (float_0_1 * 22050 / 22050)%float
                    eq_refl eq_refl)).
    exists (VBool true). split; [reflexivity|exact Ftrue].
  - apply (proj2 (proj2 (proj2 (process_audio_applies_enabled_steps
                    marking_librosa y 22050 both))));
      reflexivity.
Defined.



(** ** Normalization and pre-emphasis as described (C7, C8, C9) *)

(** No scale factor lifts a buffer of zeros: every rescaling of silence
    is silence, whatever the routine does there. *)
Lemma rescaled_silence (k : Qc) (y : buffer) :
  Forall (fun x => x = 0%Qc) y -> map (fun x => (x * k)%Qc) y = y.
Proof.
  induction 1 as [|x rest Hx _ IH]; simpl; [reflexivity|].
  rewrite IH, Hx. f_equal. apply Qcmult_0_l.
Qed.

(** C7, as stated, fails on silence: a buffer of zeros passes through the
    normalization step with its peak still 0. *)
Lemma silence_is_not_rescaled :
  ~ (forall (y : buffer) (sample_rate : Z)
       (options : gmap string pyval) (out : buffer),
       truthy (dict_get options "normalize") = true ->
       process_audio spec_librosa y sample_rate options = Ok out ->
       peak out = 1%Qc).
Proof.
  intros H.
  specialize (H [0%Qc; 0%Qc] 22050
                (<["normalize" := VBool true]> ∅) [0%Qc; 0%Qc]
                eq_refl eq_refl).
  discriminate H.
Qed.

(** C7, amended: with [normalize] enabled, the buffer that reaches the
    normalization step leaves it with maximum absolute sample 1 as soon
    as it has a sample other than 0 (its peak is not 0); a buffer of zeros
    leaves the step as it came. *)
Theorem normalize_gives_unit_peak (pre : float -> buffer -> result buffer)
    (y : buffer) (sample_rate : Z) (options : gmap string pyval)
    (out : buffer) :
  truthy (dict_get options "normalize") = true ->
  process_audio (Librosa pre spec_normalize) y sample_rate options = Ok out ->
  exists mid : buffer,
    emphasis_step (Librosa pre spec_normalize) y sample_rate options = Ok mid /\
    (peak mid <> 0%Qc -> peak out = 1%Qc) /\
    (peak mid = 0%Qc -> out = mid).
Proof.
  intros Hn. rewrite process_audio_chain. unfold effect_chain.
  destruct (emphasis_step _ y sample_rate options) as [mid|e]; simpl;
    [|discriminate].
  unfold normalize_step. rewrite Hn. simpl. unfold spec_normalize.
  intros [= <-]. exists mid. split; [reflexivity|]. split.
  - apply peak_normalize_peak.
  - apply peak_normalize_silent.
Qed.

Lemma normalize_gives_unit_peak_witness :
  let options : gmap string pyval := <["normalize" := VBool true]> ∅ in
  let y : buffer := [one_tenth; (- one_half)%Qc] in
  let out : buffer := peak_normalize y in
  (truthy (dict_get options "normalize") = true /\
   process_audio (Librosa (fun _ b => Ok b) spec_normalize) y 8000 options =
     Ok out) /\
  exists mid : buffer,
    emphasis_step (Librosa (fun _ b => Ok b) spec_normalize) y 8000 options =
      Ok mid /\
    (peak mid <> 0%Qc -> peak out = 1%Qc) /\
    (peak mid = 0%Qc -> out = mid).
Proof.
  intros options y out.
  assert (Hn : truthy (dict_get options "normalize") = true) by reflexivity.
  assert (Hp : process_audio (Librosa (fun _ b => Ok b) spec_normalize)
                 y 8000 options = Ok out).
  { reflexivity. }
  split; [split; assumption|].
  exact (normalize_gives_unit_peak (fun _ b => Ok b) y 8000 options out Hn Hp).
Defined.

(** C8: a buffer whose maximum absolute sample is 1 is a fixed point of
    the normalization step: [process_audio] with only that step enabled
    returns it unchanged, and normalizing twice is normalizing once. *)
Theorem normalize_fixed_point (pre : float -> buffer -> result buffer)
    (y : buffer) (sample_rate : Z) (options : gmap string pyval) :
  peak y = 1%Qc ->
  truthy (dict_get options "normalize") = true ->
  truthy (dict_get options "speech_emphasis") = false ->
  process_audio (Librosa pre spec_normalize) y sample_rate options = Ok y /\
  peak_normalize y = y /\
  peak_normalize (peak_normalize y) = peak_normalize y.
Proof.
  intros Hp Hn Hs.
  assert (Hfix : peak_normalize y = y) by now apply peak_normalize_fixed.
  split; [|split; [exact Hfix|now rewrite !Hfix]].
  rewrite process_audio_chain.
  unfold effect_chain, emphasis_step, normalize_step.
  rewrite Hs, Hn. simpl. unfold spec_normalize. now rewrite Hfix.
Qed.

Lemma normalize_fixed_point_witness :
  let options : gmap string pyval := <["normalize" := VBool true]> ∅ in
  let y : buffer := [one_half; (- (1))%Qc; one_tenth] in
  (peak y = 1%Qc /\
   truthy (dict_get options "normalize") = true /\
   truthy (dict_get options "speech_emphasis") = false) /\
  process_audio (Librosa (fun _ b => Ok b) spec_normalize) y 8000 options =
    Ok y /\
  peak_normalize y = y /\
  peak_normalize (peak_normalize y) = peak_normalize y.
Proof.
  intros options y.
  assert (Hp : peak y = 1%Qc) by (apply Qc_is_canon; reflexivity).
  assert (Hn : truthy (dict_get options "normalize") = true) by reflexivity.
  assert (Hs : truthy (dict_get options "speech_emphasis") = false)
    by reflexivity.
  split; [repeat split; assumption|].
  exact (normalize_fixed_point (fun _ b => Ok b) y 8000 options Hp Hn Hs).
Defined.




(** ** The m4a branch of read_audio (C10) *)

Lemma set_frame_rate_rate (w : world) (rate : Z) (audio : AudioSegment) :
  frame_rate (set_frame_rate w rate audio) = rate.
Proof.
  unfold set_frame_rate.
  destruct (frame_rate audio =? rate) eqn:E; [|reflexivity].
  now apply Z.eqb_eq.
Qed.

Lemma set_channels_channels (w : world) (n : Z) (audio : AudioSegment) :
  channels (set_channels w n audio) = n.
Proof.
  unfold set_channels.
  destruct (channels audio =? n) eqn:E; [|reflexivity].
  now apply Z.eqb_eq.
Qed.

(** On the m4a branch the sample rate returned is the fixed 22050. *)
Lemma decode_m4a_rate (w : world) (filepath : string) (samples : buffer)
    (rate : Z) :
  endswith (lower filepath) ".m4a" = true ->
  decode w filepath = Ok (samples, rate) ->
  rate = 22050.
Proof.
  intros Hext. unfold decode. rewrite Hext.
  destruct (from_file w filepath) as [audio|e]; simpl; [|discriminate].
  destruct (iinfo_max _) as [imax|e]; simpl; [|discriminate].
  intros [= _ <-]. apply set_frame_rate_rate.
Qed.

(** Dividing the most negative value of a signed integer type by the
    type's maximum gives a sample below -1. *)
Lemma min_over_max_below_minus_one (imax : Z) :
  0 < imax -> (Qc_of_Z (- imax - 1) / Qc_of_Z imax < - (1))%Qc.
Proof.
  intros Hpos. unfold Qclt, Qcdiv, Qcmult, Qcinv, Qcopp, Qc_of_Z, Q2Qc, this.
  rewrite !Qred_correct.
  destruct imax as [|p|p]; try lia.
  unfold Qlt, Qmult, Qinv, inject_Z. simpl. lia.
Qed.

(** C10: on [clip.m4a], a mono 16-bit recording already at 22050 Hz, the
    m4a branch returns rate 22050 and divides every integer sample by
    32767; the sample -32768 comes back as -32768/32767, below -1, so the
    returned buffer leaves the range [-1, 1]. *)
Theorem m4a_sample_below_minus_one :
  endswith (lower (resolve demo_world "clip.m4a")) ".m4a" = true /\
  fst (read_audio demo_world "clip.m4a" (Console [] [])) =
    Ok (OTuple
          [OArray [(Qc_of_Z (-32768) / Qc_of_Z 32767)%Qc;
                   (Qc_of_Z 0 / Qc_of_Z 32767)%Qc;
                   (Qc_of_Z 32767 / Qc_of_Z 32767)%Qc];
           OVal (VInt 22050)]) /\
  (Qc_of_Z (-32768) / Qc_of_Z 32767 < - (1))%Qc.
Proof.
  split; [reflexivity|]. split; [reflexivity|].
  apply (min_over_max_below_minus_one 32767). lia.
Qed.

(** * Further properties of the code *)

(** ** get_user_input (lines 91-106) *)

Lemma lstrip_head (s : string) :
  lstrip s = "" \/
  exists c t, lstrip s = String c t /\ is_space c = false.
Proof.
  induction s as [|c s IH]; simpl; [now left|].
  destruct (is_space c) eqn:E; [exact IH|].
  right. now exists c, s.
Qed.

Lemma rstrip_head (c : ascii) (s : string) :
  is_space c = false -> exists r, rstrip (String c s) = String c r.
Proof.
  intros Hc. simpl. destruct (rstrip s) as [|d r].
  - rewrite Hc. now exists "".
  - now exists (String d r).
Qed.

Lemma rstrip_idempotent (s : string) : rstrip (rstrip s) = rstrip s.
Proof.
  induction s as [|c s IH]; simpl; [reflexivity|].
  destruct (rstrip s) as [|d r] eqn:E.
  - destruct (is_space c) eqn:Hc; simpl; [reflexivity|]. now rewrite Hc.
  - change (rstrip (String c (String d r)))
      with (match rstrip (String d r) with
            | "" => if is_space c then "" else String c ""
            | r' => String c r'
            end).
    now rewrite IH.
Qed.

Lemma lstrip_strip (s : string) : lstrip (strip s) = strip s.
Proof.
  unfold strip. destruct (lstrip_head s) as [-> | (c & t & -> & Hc)].
  - reflexivity.
  - destruct (rstrip_head c t Hc) as [r ->]. simpl. now rewrite Hc.
Qed.

Lemma rstrip_strip (s : string) : rstrip (strip s) = strip s.
Proof. unfold strip. apply rstrip_idempotent. Qed.

Lemma strip_idempotent (s : string) : strip (strip s) = strip s.
Proof.
  unfold strip at 1. now rewrite lstrip_strip, rstrip_strip.
Qed.

(** Every successful pass through the loop has this shape. *)
Lemma loop_ok_inv (prompt : string) (lines : list string) (v : string)
    (rest : list string) (evs : list event) :
  get_user_input_loop prompt lines = (Ok v, rest, evs) ->
  exists (n : nat) (s : string),
    s <> "" /\
    lines = replicate n "" ++ s :: rest /\
    v = strip s /\
    evs = concat (replicate n [EPrompt prompt; EPrint "Please enter a value."])
          ++ [EPrompt prompt].
Proof.
  revert evs. induction lines as [|s lines IH]; intros evs H.
  - discriminate.
  - destruct s as [|c s].
    + rewrite loop_rejects_empty in H.
      destruct (get_user_input_loop prompt lines) as [[r rest'] evs'] eqn:E.
      injection H as -> -> <-.
      destruct (IH evs' eq_refl) as (n & s & Hs & -> & -> & ->).
      exists (S n), s. repeat split; try assumption; reflexivity.
    + simpl in H. injection H as <- <- <-.
      exists 0%nat, (String c s). repeat split. discriminate.
Qed.

(** Every failing pass through the loop has this shape. *)
Lemma loop_raise_inv (prompt : string) (lines : list string) (e : exn)
    (rest : list string) (evs : list event) :
  get_user_input_loop prompt lines = (Raise e, rest, evs) ->
  e = EOFError /\ rest = [] /\ Forall (fun s => s = "") lines.
Proof.
  revert evs. induction lines as [|s lines IH]; intros evs H.
  - simpl in H. injection H as <- <- _. repeat split. constructor.
  - destruct s as [|c s]; [|discriminate].
    rewrite loop_rejects_empty in H.
    destruct (get_user_input_loop prompt lines) as [[r rest'] evs'] eqn:E.
    injection H as -> -> _.
    destruct (IH evs' eq_refl) as (-> & -> & Hall).
    repeat split. now constructor.
Qed.

Lemma loop_all_empty (prompt : string) (lines : list string) :
  Forall (fun s => s = "") lines ->
  get_user_input_loop prompt lines =
  (Raise EOFError, [],
   concat (replicate (length lines)
             [EPrompt prompt; EPrint "Please enter a value."])
   ++ [EPrompt prompt]).
Proof.
  induction 1 as [|s lines -> _ IH]; [reflexivity|].
  rewrite loop_rejects_empty, IH. reflexivity.
Qed.

(** X1: after any number of empty lines, the first line that is not
    empty is taken: [get_user_input] returns it stripped, leaves the
    lines after it untyped, and has shown one prompt per line read and
    one reminder per empty line. *)
Theorem get_user_input_first_nonempty (prompt s : string) (n : nat)
    (rest : list string) (before : list event) :
  s <> "" ->
  get_user_input prompt (Console (replicate n "" ++ s :: rest) before) =
  (Ok (strip s),
   Console rest
     (before ++
      concat (replicate n [EPrompt prompt; EPrint "Please enter a value."])
      ++ [EPrompt prompt])).
Proof.
  intros Hs. unfold get_user_input. simpl pending. simpl shown.
  now rewrite (loop_skips_empty_lines prompt s n rest Hs).
Qed.

Lemma get_user_input_first_nonempty_witness :
  " a.wav " <> "" /\
  get_user_input "path: " (Console (replicate 2 "" ++ " a.wav " :: ["x"]) []) =
  (Ok "a.wav",
   Console ["x"]
     ([] ++
      concat (replicate 2 [EPrompt "path: "; EPrint "Please enter a value."])
      ++ [EPrompt "path: "])).
Proof.
  assert (H : " a.wav " <> "") by discriminate.
  split; [exact H|].
  exact (get_user_input_first_nonempty "path: " " a.wav " 2 ["x"] [] H).
Defined.

(** X2: [get_user_input] raises exactly when every line left to type is
    empty (in particular when none is left); the exception is the
    [EOFError] of [input], and by then all lines have been read. *)
Theorem get_user_input_raises_iff (prompt : string) (c : console) :
  (fst (get_user_input prompt c) = Raise EOFError <->
   Forall (fun s => s = "") (pending c)) /\
  (forall e, fst (get_user_input prompt c) = Raise e ->
     e = EOFError /\ pending (snd (get_user_input prompt c)) = []).
Proof.
  unfold get_user_input.
  destruct (get_user_input_loop prompt (pending c)) as [[r rest] evs] eqn:E.
  simpl. split; [split|].
  - intros ->. now destruct (loop_raise_inv _ _ _ _ _ E) as (_ & _ & H).
  - intros H. rewrite (loop_all_empty prompt _ H) in E. congruence.
  - intros e ->. now destruct (loop_raise_inv _ _ _ _ _ E) as (-> & -> & _).
Qed.

Lemma get_user_input_raises_iff_witness :
  Forall (fun s => s = "") (pending (Console [""; ""] [])) /\
  fst (get_user_input "path: " (Console [""; ""] [])) = Raise EOFError.
Proof.
  assert (H : Forall (fun s => s = "") (pending (Console [""; ""] [])))
    by (repeat constructor).
  split; [exact H|].
  exact (proj2 (proj1 (get_user_input_raises_iff "path: "
                         (Console [""; ""] []))) H).
Defined.

(** X3: a value returned by [get_user_input] has no whitespace left at
    either end: stripping it again, on the left or on the right, changes
    nothing. *)
Theorem get_user_input_result_trimmed (prompt : string) (c : console)
    (v : string) :
  fst (get_user_input prompt c) = Ok v ->
  lstrip v = v /\ rstrip v = v /\ strip v = v.
Proof.
  unfold get_user_input.
  destruct (get_user_input_loop prompt (pending c)) as [[r rest] evs] eqn:E.
  simpl. intros ->.
  destruct (loop_ok_inv _ _ _ _ _ E) as (n & s & _ & _ & -> & _).
  split; [apply lstrip_strip|]. split; [apply rstrip_strip|].
  apply strip_idempotent.
Qed.

Lemma get_user_input_result_trimmed_witness :
  fst (get_user_input "path: " (Console ["  my file.wav  "] [])) =
    Ok "my file.wav" /\
  lstrip "my file.wav" = "my file.wav" /\
  rstrip "my file.wav" = "my file.wav" /\
  strip "my file.wav" = "my file.wav".
Proof.
  assert (H : fst (get_user_input "path: " (Console ["  my file.wav  "] [])) =
              Ok "my file.wav") by reflexivity.
  split; [exact H|].
  exact (get_user_input_result_trimmed "path: "
           (Console ["  my file.wav  "] []) "my file.wav" H).
Defined.

(** X4: whenever [get_user_input] returns a value, that value is one
    typed line, not empty, stripped; the lines typed before it were all
    empty and the lines after it are still to be read. *)
Theorem get_user_input_ok_inv (prompt : string) (c c' : console)
    (v : string) :
  get_user_input prompt c = (Ok v, c') ->
  exists (n : nat) (s : string),
    s <> "" /\
    v = strip s /\
    pending c = replicate n "" ++ s :: pending c' /\
    shown c' =
      shown c ++
      concat (replicate n [EPrompt prompt; EPrint "Please enter a value."])
      ++ [EPrompt prompt].
Proof.
  unfold get_user_input.
  destruct (get_user_input_loop prompt (pending c)) as [[r rest] evs] eqn:E.
  intros [= -> <-].
  destruct (loop_ok_inv _ _ _ _ _ E) as (n & s & Hs & Hl & Hv & ->).
  exists n, s. simpl. repeat split; assumption.
Qed.

Lemma get_user_input_ok_inv_witness :
  get_user_input "path: " (Console [""; "a.wav"; "out.wav"] []) =
    (Ok "a.wav",
     Console ["out.wav"]
       [EPrompt "path: "; EPrint "Please enter a value."; EPrompt "path: "]) /\
  exists (n : nat) (s : string),
    s <> "" /\
    "a.wav" = strip s /\
    pending (Console [""; "a.wav"; "out.wav"] []) =
      replicate n "" ++ s :: ["out.wav"] /\
    [EPrompt "path: "; EPrint "Please enter a value."; EPrompt "path: "] =
      [] ++
      concat (replicate n [EPrompt "path: "; EPrint "Please enter a value."])
      ++ [EPrompt "path: "].
Proof.
  assert (H : get_user_input "path: " (Console [""; "a.wav"; "out.wav"] []) =
    (Ok "a.wav",
     Console ["out.wav"]
       [EPrompt "path: "; EPrint "Please enter a value."; EPrompt "path: "]))
    by reflexivity.
  split; [exact H|].
  exact (get_user_input_ok_inv "path: " (Console [""; "a.wav"; "out.wav"] [])
           _ "a.wav" H).
Defined.

(** ** read_audio (lines 7-41) *)

Lemma string_length_append (a b : string) :
  String.length (String.append a b) = (String.length a + String.length b)%nat.
Proof. induction a as [|c a IH]; simpl; [reflexivity|]. now rewrite IH. Qed.

Lemma substring_all (b : string) : substring 0 (String.length b) b = b.
Proof. induction b as [|c b IH]; simpl; [reflexivity|]. now rewrite IH. Qed.

Lemma substring_skip_prefix (a b : string) :
  substring (String.length a) (String.length b) (String.append a b) = b.
Proof. induction a as [|c a IH]; simpl; [apply substring_all|exact IH]. Qed.

Lemma endswith_append (a b : string) : endswith (String.append a b) b = true.
Proof.
  unfold endswith. rewrite string_length_append.
  destruct (Nat.leb_spec (String.length b) (String.length a + String.length b))
    as [_|H]; [|lia].
  replace (String.length a + String.length b - String.length b)%nat
    with (String.length a) by lia.
  rewrite substring_skip_prefix. apply String.eqb_refl.
Qed.

Lemma lower_append (a b : string) :
  lower (String.append a b) = String.append (lower a) (lower b).
Proof. induction a as [|c a IH]; simpl; [reflexivity|]. now rewrite IH. Qed.

Lemma iinfo_max_positive (width imax : Z) :
  iinfo_max width = Ok imax -> 0 < imax.
Proof.
  unfold iinfo_max. intros H.
  destruct width as [|[[[]|[]|]|[[]|[]|]|]|]; try discriminate;
    injection H as <-; lia.
Qed.

(** An integer sample within the symmetric range of its type lands in
    [-1, 1] when divided by the maximum of the type. *)
Lemma sample_over_max_in_range (s imax : Z) :
  0 < imax -> - imax <= s <= imax ->
  (- (1) <= Qc_of_Z s / Qc_of_Z imax)%Qc /\
  (Qc_of_Z s / Qc_of_Z imax <= 1)%Qc.
Proof.
  intros Hpos Hs.
  unfold Qcle, Qcdiv, Qcmult, Qcinv, Qcopp, Qc_of_Z, Q2Qc, this.
  rewrite !Qred_correct.
  destruct imax as [|p|p]; try lia.
  unfold Qle, Qmult, Qinv, inject_Z. simpl. split; lia.
Qed.

Lemma decode_m4a_samples (w : world) (filepath : string)
    (audio : AudioSegment) (imax : Z) :
  endswith (lower filepath) ".m4a" = true ->
  from_file w filepath = Ok audio ->
  iinfo_max
    (sample_width (set_frame_rate w 22050 (set_channels w 1 audio))) =
    Ok imax ->
  decode w filepath =
  Ok (map (fun s => (Qc_of_Z s / Qc_of_Z imax)%Qc)
        (raw_samples (set_frame_rate w 22050 (set_channels w 1 audio))),
      22050).
Proof.
  intros Hext Hfile Hmax. unfold decode. rewrite Hext, Hfile. simpl.
  rewrite Hmax. simpl. now rewrite set_frame_rate_rate.
Qed.


(** X6: for a resolved path that does not end in [.m4a], whatever
    [soundfile.read] returns is handed back untouched: same samples, same
    sample rate, after the single diagnostic line. *)
Theorem read_audio_other_format (w : world) (filepath : string)
    (c : console) (samples : buffer) (rate : Z) :
  endswith (lower (resolve w filepath)) ".m4a" = false ->
  sf_read w (resolve w filepath) = Ok (samples, rate) ->
  read_audio w filepath c =
  (Ok (OTuple [OArray samples; OVal (VInt rate)]),
   Console (pending c) (shown c ++ [reading_line w filepath])).
Proof.
  intros Hext Hread. apply read_audio_success.
  unfold decode. now rewrite Hext.
Qed.

Lemma read_audio_other_format_witness :
  (endswith (lower (resolve demo_world "a.wav")) ".m4a" = false /\
   sf_read demo_world (resolve demo_world "a.wav") =
     Ok ([one_half; (- one_tenth)%Qc], 8000)) /\
  read_audio demo_world "a.wav" (Console ["out.wav"] []) =
  (Ok (OTuple [OArray [one_half; (- one_tenth)%Qc]; OVal (VInt 8000)]),
   Console (pending (Console ["out.wav"] []))
     (shown (Console ["out.wav"] []) ++ [reading_line demo_world "a.wav"])).
Proof.
  assert (H1 : endswith (lower (resolve demo_world "a.wav")) ".m4a" = false)
    by reflexivity.
  assert (H2 : sf_read demo_world (resolve demo_world "a.wav") =
               Ok ([one_half; (- one_tenth)%Qc], 8000)) by reflexivity.
  split; [split; assumption|].
  exact (read_audio_other_format demo_world "a.wav" (Console ["out.wav"] [])
           [one_half; (- one_tenth)%Qc] 8000 H1 H2).
Defined.

(** X7: whenever [read_audio] returns a pair for a resolved path ending
    in [.m4a], the sample rate in it is 22050, whatever rate the file
    was recorded at. *)
Theorem read_audio_m4a_rate (w : world) (filepath : string) (c : console)
    (samples : buffer) (rate : Z) :
  endswith (lower (resolve w filepath)) ".m4a" = true ->
  fst (read_audio w filepath c) =
    Ok (OTuple [OArray samples; OVal (VInt rate)]) ->
  rate = 22050.
Proof.
  intros Hext H.
  destruct (decode w (resolve w filepath)) as [[samples' rate']|e] eqn:D.
  - rewrite (read_audio_success _ _ _ _ _ D) in H. simpl in H.
    injection H as _ <-. exact (decode_m4a_rate _ _ _ _ Hext D).
  - rewrite (read_audio_failure _ _ _ _ D) in H. discriminate.
Qed.

Lemma read_audio_m4a_rate_witness :
  (endswith (lower (resolve demo_world "clip.m4a")) ".m4a" = true /\
   fst (read_audio demo_world "clip.m4a" (Console [] [])) =
     Ok (OTuple
           [OArray [(Qc_of_Z (-32768) / Qc_of_Z 32767)%Qc;
                    (Qc_of_Z 0 / Qc_of_Z 32767)%Qc;
                    (Qc_of_Z 32767 / Qc_of_Z 32767)%Qc];
            OVal (VInt 22050)])) /\
  22050 = 22050.
Proof.
  assert (H1 : endswith (lower (resolve demo_world "clip.m4a")) ".m4a" = true)
    by reflexivity.
  assert (H2 : fst (read_audio demo_world "clip.m4a" (Console [] [])) =
     Ok (OTuple
           [OArray [(Qc_of_Z (-32768) / Qc_of_Z 32767)%Qc;
                    (Qc_of_Z 0 / Qc_of_Z 32767)%Qc;
                    (Qc_of_Z 32767 / Qc_of_Z 32767)%Qc];
            OVal (VInt 22050)])) by reflexivity.
  split; [split; assumption|].
  exact (read_audio_m4a_rate demo_world "clip.m4a" (Console [] []) _ 22050
           H1 H2).
Defined.

(** X8: on the m4a branch there is one returned sample per integer
    sample of the converted segment, and if none of those integers is
    below minus the maximum of their type (only the single most negative
    value is), every returned sample lies in [-1, 1]. *)
Theorem read_audio_m4a_range (w : world) (filepath : string)
    (audio : AudioSegment) (imax : Z) :
  endswith (lower filepath) ".m4a" = true ->
  from_file w filepath = Ok audio ->
  iinfo_max
    (sample_width (set_frame_rate w 22050 (set_channels w 1 audio))) =
    Ok imax ->
  Forall (fun s => - imax <= s <= imax)
    (raw_samples (set_frame_rate w 22050 (set_channels w 1 audio))) ->
  exists samples : buffer,
    decode w filepath = Ok (samples, 22050) /\
    length samples =
      length (raw_samples (set_frame_rate w 22050 (set_channels w 1 audio))) /\
    Forall (fun x => (- (1) <= x)%Qc /\ (x <= 1)%Qc) samples.
Proof.
  intros Hext Hfile Hmax Hrange.
  rewrite (decode_m4a_samples _ _ _ _ Hext Hfile Hmax).
  eexists. split; [reflexivity|]. split; [apply length_map|].
  apply iinfo_max_positive in Hmax.
  induction Hrange as [|s rest Hs _ IH]; simpl; constructor.
  - now apply sample_over_max_in_range.
  - exact IH.
Qed.

(** A segment for the witness below: stereo 8-bit at 44100 Hz, so that
    both conversions run. *)
Lemma read_audio_m4a_range_witness :
  let w :=
    World (fun s => s) (fun s => s)
      (fun _ => Ok (Segment 44100 2 1 [-127; 5; 127; 0]))
      (fun _ _ l => firstn 2 l) (fun _ _ _ l => l)
      (fun _ => Raise FileNotFoundError) (fun _ _ _ => Ok tt) in
  let audio := Segment 44100 2 1 [-127; 5; 127; 0] in
  (endswith (lower "Take.M4A") ".m4a" = true /\
   from_file w "Take.M4A" = Ok audio /\
   iinfo_max
     (sample_width (set_frame_rate w 22050 (set_channels w 1 audio))) =
     Ok 127 /\
   Forall (fun s => - 127 <= s <= 127)
     (raw_samples (set_frame_rate w 22050 (set_channels w 1 audio)))) /\
  exists samples : buffer,
    decode w "Take.M4A" = Ok (samples, 22050) /\
    length samples =
      length (raw_samples (set_frame_rate w 22050 (set_channels w 1 audio))) /\
    Forall (fun x => (- (1) <= x)%Qc /\ (x <= 1)%Qc) samples.
Proof.
  intros w audio.
  assert (H1 : endswith (lower "Take.M4A") ".m4a" = true) by reflexivity.
  assert (H2 : from_file w "Take.M4A" = Ok audio) by reflexivity.
  assert (H3 : iinfo_max
     (sample_width (set_frame_rate w 22050 (set_channels w 1 audio))) =
     Ok 127) by reflexivity.
  assert (H4 : Forall (fun s => - 127 <= s <= 127)
     (raw_samples (set_frame_rate w 22050 (set_channels w 1 audio)))).
  { simpl. repeat constructor; lia. }
  split; [repeat split; assumption|].
  exact (read_audio_m4a_range w "Take.M4A" audio 127 H1 H2 H3 H4).
Defined.

(** X9: the extension test ignores letter case: a path whose last four
    characters lower to [.m4a] goes to the pydub decoder, so an exception
    of that decoder is the outcome of decoding and [read_audio] returns
    [None], whether or not [soundfile.read] could have read the file. *)
Theorem read_audio_m4a_any_case (w : world) (filepath stem ext : string)
    (e : exn) (c : console) :
  resolve w filepath = String.append stem ext ->
  lower ext = ".m4a" ->
  from_file w (resolve w filepath) = Raise e ->
  endswith (lower (resolve w filepath)) ".m4a" = true /\
  decode w (resolve w filepath) = Raise e /\
  fst (read_audio w filepath c) = Ok (OVal VNone).
Proof.
  intros Hpath Hext Hfile.
  assert (Hm : endswith (lower (resolve w filepath)) ".m4a" = true).
  { rewrite Hpath, lower_append, Hext. apply endswith_append. }
  assert (Hd : decode w (resolve w filepath) = Raise e).
  { unfold decode. now rewrite Hm, Hfile. }
  repeat split; [exact Hm|exact Hd|].
  now rewrite (read_audio_failure _ _ _ _ Hd).
Qed.

Lemma read_audio_m4a_any_case_witness :
  let w :=
    World (fun s => s) (fun s => s)
      (fun _ => Raise (OtherException "Decoding failed."))
      (fun _ _ l => l) (fun _ _ _ l => l)
      (fun _ => Ok ([one_half], 8000)) (fun _ _ _ => Ok tt) in
  (resolve w "Song.M4a" = String.append "Song" ".M4a" /\
   lower ".M4a" = ".m4a" /\
   from_file w (resolve w "Song.M4a") =
     Raise (OtherException "Decoding failed.")) /\
  endswith (lower (resolve w "Song.M4a")) ".m4a" = true /\
  decode w (resolve w "Song.M4a") =
    Raise (OtherException "Decoding failed.") /\
  fst (read_audio w "Song.M4a" (Console [] [])) = Ok (OVal VNone).
Proof.
  intros w.
  assert (H1 : resolve w "Song.M4a" = String.append "Song" ".M4a")
    by reflexivity.
  assert (H2 : lower ".M4a" = ".m4a") by reflexivity.
  assert (H3 : from_file w (resolve w "Song.M4a") =
               Raise (OtherException "Decoding failed.")) by reflexivity.
  split; [repeat split; assumption|].
  exact (read_audio_m4a_any_case w "Song.M4a" "Song" ".M4a" _
           (Console [] []) H1 H2 H3).
Defined.

(** ** process_audio (lines 43-78) *)

(** X10: [options.get("rolloff_freq", ...)] falls back to the default
    only when the key is absent. With [speech_emphasis] enabled and the
    key present but holding [None] or a string, neither librosa routine
    is called: the default [0.1 * sample_rate] is computed first, which
    raises [OverflowError] for a sample rate too large for a double, and
    then the division raises [TypeError]. *)
Theorem process_audio_rolloff_not_a_number (L : librosa) (y : buffer)
    (sample_rate : Z) (options : gmap string pyval) :
  truthy (dict_get options "speech_emphasis") = true ->
  options !! "rolloff_freq" = Some VNone \/
  (exists s, options !! "rolloff_freq" = Some (VStr s)) ->
  process_audio L y sample_rate options =
    (let? _ := float_of_int sample_rate in Raise TypeError).
Proof.
  intros Hs Hr. rewrite process_audio_chain.
  unfold effect_chain, emphasis_step, dict_get_default, float_times_int.
  rewrite Hs.
  destruct (float_of_int sample_rate) as [d|e]; [|reflexivity].
  destruct Hr as [-> | [s ->]]; reflexivity.
Qed.

Lemma process_audio_rolloff_not_a_number_witness :
  let options : gmap string pyval :=
    <["speech_emphasis" := VBool true]> (<["rolloff_freq" := VNone]> ∅) in
  (truthy (dict_get options "speech_emphasis") = true /\
   (options !! "rolloff_freq" = Some VNone \/
    exists s, options !! "rolloff_freq" = Some (VStr s))) /\
  float_of_int 8000 = Ok 8000%float /\
  process_audio plain_librosa [one_half] 8000 options =
    (let? _ := float_of_int 8000 in Raise TypeError).
Proof.
  intros options.
  assert (H1 : truthy (dict_get options "speech_emphasis") = true)
    by reflexivity.
  assert (H2 : options !! "rolloff_freq" = Some VNone \/
               exists s, options !! "rolloff_freq" = Some (VStr s))
    by (left; reflexivity).
  split; [split; assumption|]. split; [reflexivity|].
  exact (process_audio_rolloff_not_a_number plain_librosa [one_half] 8000
           options H1 H2).
Defined.

(** X11: with [speech_emphasis] enabled, a sample rate of 0 makes
    [process_audio] raise [ZeroDivisionError] for an absent or numeric
    [rolloff_freq], before either librosa routine is called. *)
Theorem process_audio_zero_rate (L : librosa) (y : buffer)
    (options : gmap string pyval) :
  truthy (dict_get options "speech_emphasis") = true ->
  options !! "rolloff_freq" = None \/
  (exists x, options !! "rolloff_freq" = Some (VFloat x)) \/
  (exists k, options !! "rolloff_freq" = Some (VInt k)) \/
  (exists b, options !! "rolloff_freq" = Some (VBool b)) ->
  process_audio L y 0 options = Raise ZeroDivisionError.
Proof.
  intros Hs Hr. rewrite process_audio_chain.
  unfold effect_chain, emphasis_step, dict_get_default. rewrite Hs.
  destruct Hr as [-> | [[x ->] | [[k ->] | [b ->]]]]; reflexivity.
Qed.

Lemma process_audio_zero_rate_witness :
  let options : gmap string pyval := <["speech_emphasis" := VInt 1]> ∅ in
  (truthy (dict_get options "speech_emphasis") = true /\
   (options !! "rolloff_freq" = None \/
    (exists x, options !! "rolloff_freq" = Some (VFloat x)) \/
    (exists k, options !! "rolloff_freq" = Some (VInt k)) \/
    (exists b, options !! "rolloff_freq" = Some (VBool b)))) /\
  process_audio plain_librosa [one_half] 0 options = Raise ZeroDivisionError.
Proof.
  intros options.
  assert (H1 : truthy (dict_get options "speech_emphasis") = true)
    by reflexivity.
  assert (H2 : options !! "rolloff_freq" = None \/
    (exists x, options !! "rolloff_freq" = Some (VFloat x)) \/
    (exists k, options !! "rolloff_freq" = Some (VInt k)) \/
    (exists b, options !! "rolloff_freq" = Some (VBool b)))
    by (left; reflexivity).
  split; [split; assumption|].
  exact (process_audio_zero_rate plain_librosa [one_half] options H1 H2).
Defined.

(** X12: with [speech_emphasis] disabled neither the sample rate nor
    [rolloff_freq] is looked at: the result is the same at every sample
    rate, 0 included, and under every change of [rolloff_freq]. *)
Theorem process_audio_without_emphasis (L : librosa) (y : buffer)
    (sample_rate sample_rate' : Z) (options : gmap string pyval)
    (v : pyval) :
  truthy (dict_get options "speech_emphasis") = false ->
  process_audio L y sample_rate options =
    process_audio L y sample_rate' options /\
  process_audio L y sample_rate (<["rolloff_freq" := v]> options) =
    process_audio L y sample_rate options /\
  process_audio L y sample_rate (delete "rolloff_freq" options) =
    process_audio L y sample_rate options.
Proof.
  intros Hs. rewrite !process_audio_chain.
  unfold effect_chain, emphasis_step, normalize_step, dict_get in *.
  rewrite lookup_insert_ne by discriminate.
  rewrite !(lookup_insert_ne options "rolloff_freq" "normalize")
    by discriminate.
  rewrite !lookup_delete_ne by discriminate.
  now rewrite Hs.
Qed.

Lemma process_audio_without_emphasis_witness :
  let options : gmap string pyval := <["normalize" := VBool true]> ∅ in
  truthy (dict_get options "speech_emphasis") = false /\
  process_audio plain_librosa [one_half] 0 options =
    process_audio plain_librosa [one_half] 8000 options /\
  process_audio plain_librosa [one_half] 0
    (<["rolloff_freq" := VStr "high"]> options) =
    process_audio plain_librosa [one_half] 0 options /\
  process_audio plain_librosa [one_half] 0 (delete "rolloff_freq" options) =
    process_audio plain_librosa [one_half] 0 options.
Proof.
  intros options.
  assert (H : truthy (dict_get options "speech_emphasis") = false)
    by reflexivity.
  split; [exact H|].
  exact (process_audio_without_emphasis plain_librosa [one_half] 0 8000
           options (VStr "high") H).
Defined.

(** X13: the flags are read by Python truth value. With speech emphasis
    off, [normalize] given as any string that is not empty or any int
    other than 0 runs the normalization, while 0, 0.0, -0.0, the empty
    string, [None], [False] or no entry at all returns the input
    buffer. *)
Theorem process_audio_flag_truth_value (L : librosa) (y : buffer)
    (sample_rate : Z) (options : gmap string pyval) :
  truthy (dict_get options "speech_emphasis") = false ->
  (forall s, s <> "" -> options !! "normalize" = Some (VStr s) ->
     process_audio L y sample_rate options = normalize L y) /\
  (forall k, k <> 0 -> options !! "normalize" = Some (VInt k) ->
     process_audio L y sample_rate options = normalize L y) /\
  (options !! "normalize" = None \/
   options !! "normalize" = Some VNone \/
   options !! "normalize" = Some (VBool false) \/
   options !! "normalize" = Some (VInt 0) \/
   options !! "normalize" = Some (VFloat 0%float) \/
   options !! "normalize" = Some (VFloat (-0)%float) \/
   options !! "normalize" = Some (VStr "") ->
   process_audio L y sample_rate options = Ok y).
Proof.
  intros Hs.
  assert (Hchain : process_audio L y sample_rate options =
                   normalize_step L y options).
  { rewrite process_audio_chain. unfold effect_chain, emphasis_step.
    now rewrite Hs. }
  rewrite Hchain. unfold normalize_step, dict_get. repeat split.
  - intros s Hne ->. simpl. destruct s; [congruence|]. simpl.
    now destruct (normalize L y).
  - intros k Hne ->. simpl. apply Z.eqb_neq in Hne as ->. simpl.
    now destruct (normalize L y).
  - intros [-> | [-> | [-> | [-> | [-> | [-> | ->]]]]]]; reflexivity.
Qed.

Lemma process_audio_flag_truth_value_witness :
  let options : gmap string pyval := <["normalize" := VStr "no"]> ∅ in
  (truthy (dict_get options "speech_emphasis") = false /\
   "no" <> "" /\
   options !! "normalize" = Some (VStr "no")) /\
  process_audio spec_librosa [one_half] 8000 options =
    normalize spec_librosa [one_half].
Proof.
  intros options.
  assert (H1 : truthy (dict_get options "speech_emphasis") = false)
    by reflexivity.
  assert (H2 : "no" <> "") by discriminate.
  assert (H3 : options !! "normalize" = Some (VStr "no")) by reflexivity.
  split; [repeat split; assumption|].
  exact (proj1 (process_audio_flag_truth_value spec_librosa
                  [one_half] 8000 options H1) "no" H2 H3).
Defined.

(** ** main (lines 108-137) and write_audio (lines 80-89) *)

(** The options of [main] at a sample rate that converts to the double
    [d]: both flags are on and the roll-off is [0.1 * d]. *)
Lemma main_process_chain (L : librosa) (y : buffer) (rate : Z) (d : float) :
  rate <> 0 ->
  float_of_int rate = Ok d ->
  main_process L y rate =
    (let? y1 := preemphasis L (float_0_1 * d / d)%float y in normalize L y1).
Proof.
  intros Hr Hd. unfold main_process, main_options.
  rewrite (float_times_int_ok float_0_1 d rate Hd). cbn [result_bind].
  rewrite (process_audio_emphasised L y rate _
             (float_0_1 * d)%float (float_0_1 * d / d)%float).
  - reflexivity.
  - reflexivity.
  - now apply float_times_int_ok.
  - change (py_truediv (VFloat (float_0_1 * d)%float) rate
            = Ok (float_0_1 * d / d)%float).
    now apply py_truediv_float.
Qed.

(** Every run of [main] is of one of three kinds: it raised without
    calling the writer; it called the writer once, the call returned and
    the run completed; it called the writer once and the call raised. *)
Lemma run_main_cases (w : world) (L : librosa) (typed : list string) :
  (exists e c', run_main w L typed = (Raise e, c') /\ written (shown c') = [])
  \/
  (exists out d r before rest,
     sf_write w out d r = Ok tt /\
     written before = [] /\
     run_main w L typed =
       (Ok Completed,
        Console rest
          (before ++ [EWrite out d r; EPrint "Audio processing complete!"])))
  \/
  (exists out d r before rest e,
     sf_write w out d r = Raise e /\
     written before = [] /\
     run_main w L typed =
       (Raise e, Console rest (before ++ [EWrite out d r]))).
Proof.
  rewrite run_main_steps. unfold run_by_steps.
  pose proof (loop_writes_nothing prompt_in typed) as Hw1.
  destruct (get_user_input_loop prompt_in typed) as [[[path|e] rest] evs];
    simpl in Hw1.
  2:{ left. now exists e, (Console rest evs). }
  destruct (decode w (resolve w path)) as [[samples rate]|e].
  2:{ left. eexists _, _. split; [reflexivity|]. simpl.
      now rewrite written_app, written_failure_line, Hw1. }
  simpl.
  destruct (main_process L samples rate) as [d|e].
  2:{ left. eexists _, _. split; [reflexivity|]. simpl.
      now rewrite written_app, Hw1. }
  pose proof (loop_writes_nothing prompt_out rest) as Hw2.
  destruct (get_user_input_loop prompt_out rest) as [[[out|e] rest'] evs'];
    simpl in Hw2.
  2:{ left. eexists _, _. split; [reflexivity|]. simpl.
      now rewrite !written_app, Hw1, Hw2. }
  assert (Hb : written ((evs ++ [reading_line w path]) ++ evs') = []).
  { now rewrite !written_app, Hw1, Hw2. }
  destruct (sf_write w out d rate) as [[]|e] eqn:Hwrite.
  - right. left.
    exists out, d, rate, ((evs ++ [reading_line w path]) ++ evs'), rest'.
    repeat split; try assumption. now rewrite <- app_assoc.
  - right. right.
    exists out, d, rate, ((evs ++ [reading_line w path]) ++ evs'), rest', e.
    repeat split; assumption.
Qed.

(** X14: [main] runs [process_audio] with a fixed configuration. For a
    sample rate other than 0 that converts to the double [d], the result
    is pre-emphasis followed by normalization, exceptions of either
    routine included, and the coefficient is the double
    [(0.1 * d) / d]: that is the double 0.1 at 22050 Hz, and the double
    just below it at 47952 Hz. At sample rate 0 the result is a
    [ZeroDivisionError], and a sample rate too large for a double raises
    when the options are built. *)
Theorem main_options_pipeline (L : librosa) (y : buffer) (rate : Z) :
  (forall d, rate <> 0 -> float_of_int rate = Ok d ->
     main_process L y rate =
       (let? y1 := preemphasis L (float_0_1 * d / d)%float y in
        normalize L y1)) /\
  main_process L y 0 = Raise ZeroDivisionError /\
  (forall e, float_of_int rate = Raise e -> main_process L y rate = Raise e) /\
  main_process L y 22050 =
    (let? y1 := preemphasis L float_0_1 y in normalize L y1) /\
  main_process L y 47952 =
    (let? y1 := preemphasis L 0x1.9999999999999p-4%float y in
     normalize L y1).
Proof.
  split; [|split; [|split; [|split]]].
  - intros d. apply main_process_chain.
  - reflexivity.
  - intros e He. unfold main_process, main_options, float_times_int.
    now rewrite He.
  - now rewrite (main_process_chain L y 22050 22050%float).
  - now rewrite (main_process_chain L y 47952 47952%float).
Qed.

Lemma main_options_pipeline_witness :
  (8000 <> 0 /\ float_of_int 8000 = Ok 8000%float) /\
  main_process spec_librosa [one_half; one_tenth] 8000 =
    (let? y1 := preemphasis spec_librosa (float_0_1 * 8000 / 8000)%float
                  [one_half; one_tenth] in
     normalize spec_librosa y1).
Proof.
  assert (H : 8000 <> 0) by lia.
  assert (Hd : float_of_int 8000 = Ok 8000%float) by reflexivity.
  split; [split; assumption|].
  exact (proj1 (main_options_pipeline spec_librosa [one_half; one_tenth] 8000)
           8000%float H Hd).
Defined.

(** X15: a run of [main] calls the file writer at most once. *)
Theorem main_writes_at_most_once (w : world) (L : librosa)
    (typed : list string) :
  (length (written (shown (snd (run_main w L typed)))) <= 1)%nat.
Proof.
  destruct (run_main_cases w L typed)
    as [(e & c' & -> & Hw)
       |[(out & d & r & before & rest & _ & Hw & ->)
        |(out & d & r & before & rest & e & _ & Hw & ->)]]; simpl.
  - rewrite Hw. simpl. lia.
  - rewrite written_app, Hw. simpl. lia.
  - rewrite written_app, Hw. simpl. lia.
Qed.

(** X16: a run of [main] that completes has called the writer exactly
    once, that call returned normally, and the last two things that
    happened are that call and the print of the closing message. *)
Theorem main_completed_inv (w : world) (L : librosa) (typed : list string) :
  fst (run_main w L typed) = Ok Completed ->
  exists out d r before,
    shown (snd (run_main w L typed)) =
      before ++ [EWrite out d r; EPrint "Audio processing complete!"] /\
    written (shown (snd (run_main w L typed))) = [(out, d, r)] /\
    sf_write w out d r = Ok tt.
Proof.
  destruct (run_main_cases w L typed)
    as [(e & c' & -> & Hw)
       |[(out & d & r & before & rest & Hwrite & Hw & ->)
        |(out & d & r & before & rest & e & _ & Hw & ->)]]; simpl;
    try discriminate.
  intros _. exists out, d, r, before. repeat split; [|exact Hwrite].
  now rewrite written_app, Hw.
Qed.

Lemma main_completed_inv_witness :
  fst (run_main demo_world plain_librosa ["a.wav"; "out.wav"]) =
    Ok Completed /\
  exists out d r before,
    shown (snd (run_main demo_world plain_librosa ["a.wav"; "out.wav"])) =
      before ++ [EWrite out d r; EPrint "Audio processing complete!"] /\
    written (shown (snd (run_main demo_world plain_librosa
                           ["a.wav"; "out.wav"]))) = [(out, d, r)] /\
    sf_write demo_world out d r = Ok tt.
Proof.
  assert (H : fst (run_main demo_world plain_librosa ["a.wav"; "out.wav"]) =
              Ok Completed) by reflexivity.
  split; [exact H|].
  exact (main_completed_inv demo_world plain_librosa ["a.wav"; "out.wav"] H).
Defined.

(** X17: nothing in [main] or [write_audio] catches an exception of
    [soundfile.write]: when the call made by a run raises, the run ends
    with that very exception. *)
Theorem main_write_failure_propagates (w : world) (L : librosa)
    (typed : list string) (out : string) (d : buffer) (r : Z) (e : exn) :
  In (out, d, r) (written (shown (snd (run_main w L typed)))) ->
  sf_write w out d r = Raise e ->
  fst (run_main w L typed) = Raise e.
Proof.
  destruct (run_main_cases w L typed)
    as [(e' & c' & -> & Hw)
       |[(out' & d' & r' & before & rest & Hwrite & Hw & ->)
        |(out' & d' & r' & before & rest & e' & Hwrite & Hw & ->)]]; simpl.
  - rewrite Hw. intros [].
  - rewrite written_app, Hw. simpl. intros [[= <- <- <-]|[]]. congruence.
  - rewrite written_app, Hw. simpl. intros [[= <- <- <-]|[]]. congruence.
Qed.

Lemma main_write_failure_propagates_witness :
  let w :=
    World (fun s => s) (fun s => s)
      (fun _ => Raise FileNotFoundError)
      (fun _ _ l => l) (fun _ _ _ l => l)
      (fun _ => Ok ([one_half], 8000))
      (fun _ _ _ => Raise (OtherException "Disk full.")) in
  (In ("out.wav", [one_half], 8000)
     (written (shown (snd (run_main w plain_librosa ["a.wav"; "out.wav"]))))
   /\
   sf_write w "out.wav" [one_half] 8000 =
     Raise (OtherException "Disk full.")) /\
  fst (run_main w plain_librosa ["a.wav"; "out.wav"]) =
    Raise (OtherException "Disk full.").
Proof.
  intros w.
  assert (H1 : In ("out.wav", [one_half], 8000)
     (written (shown (snd (run_main w plain_librosa ["a.wav"; "out.wav"])))))
    by (left; reflexivity).
  assert (H2 : sf_write w "out.wav" [one_half] 8000 =
               Raise (OtherException "Disk full.")) by reflexivity.
  split; [split; assumption|].
  exact (main_write_failure_propagates w plain_librosa ["a.wav"; "out.wav"]
           "out.wav" [one_half] 8000 _ H1 H2).
Defined.

Lemma loop_events_shape (prompt : string) (lines : list string) :
  Forall (fun ev => ev = EPrompt prompt \/ ev = EPrint "Please enter a value.")
    (snd (get_user_input_loop prompt lines)).
Proof.
  induction lines as [|s lines IH]; simpl.
  - repeat constructor.
  - destruct (str_is_empty s); simpl; [|repeat constructor].
    destruct (get_user_input_loop prompt lines) as [[r rest] evs].
    simpl in *. constructor; [now left|]. constructor; [now right|exact IH].
Qed.

Lemma closing_message_not_in_loop (prompt : string) (lines : list string) :
  ~ In (EPrint "Audio processing complete!")
      (snd (get_user_input_loop prompt lines)).
Proof.
  intros Hin.
  pose proof (loop_events_shape prompt lines) as Hall.
  rewrite List.Forall_forall in Hall.
  destruct (Hall _ Hin) as [H|H]; discriminate H.
Qed.

Lemma closing_message_not_reading (w : world) (path : string) :
  reading_line w path <> EPrint "Audio processing complete!".
Proof. unfold reading_line. simpl. discriminate. Qed.

Lemma closing_message_not_failure (w : world) (path : string) (e : exn) :
  failure_line w path e <> EPrint "Audio processing complete!".
Proof. destruct e; simpl; discriminate. Qed.

(** X18: when every typed line is empty (or nothing is typed), [main]
    ends with [EOFError] at its first prompt: it has asked once per line
    and once more, and has neither read a file nor called the writer. *)
Theorem main_without_input_path (w : world) (L : librosa)
    (typed : list string) :
  Forall (fun s => s = "") typed ->
  run_main w L typed =
  (Raise EOFError,
   Console []
     (concat (replicate (length typed)
                [EPrompt prompt_in; EPrint "Please enter a value."])
      ++ [EPrompt prompt_in])).
Proof.
  intros H. rewrite run_main_steps. unfold run_by_steps.
  now rewrite (loop_all_empty prompt_in typed H).
Qed.

Lemma main_without_input_path_witness :
  Forall (fun s => s = "") [""; ""] /\
  run_main demo_world plain_librosa [""; ""] =
  (Raise EOFError,
   Console []
     (concat (replicate (length [""; ""])
                [EPrompt prompt_in; EPrint "Please enter a value."])
      ++ [EPrompt prompt_in])).
Proof.
  assert (H : Forall (fun s => s = "") [""; ""]) by (repeat constructor).
  split; [exact H|].
  exact (main_without_input_path demo_world plain_librosa [""; ""] H).
Defined.

(** X19: whitespace around the typed input path does not matter: as long
    as something is left after stripping, the run is the same as if the
    stripped path had been typed. *)
Theorem main_ignores_path_padding (w : world) (L : librosa) (s : string)
    (rest : list string) :
  strip s <> "" ->
  run_main w L (s :: rest) = run_main w L (strip s :: rest).
Proof.
  intros Hs.
  assert (Hne : s <> "") by (intros ->; now apply Hs).
  rewrite !run_main_steps. unfold run_by_steps.
  rewrite (loop_accepts_nonempty prompt_in s rest Hne).
  rewrite (loop_accepts_nonempty prompt_in (strip s) rest Hs).
  now rewrite strip_idempotent.
Qed.

Lemma main_ignores_path_padding_witness :
  strip "  a.wav " <> "" /\
  run_main demo_world plain_librosa ["  a.wav "; "out.wav"] =
  run_main demo_world plain_librosa [strip "  a.wav "; "out.wav"].
Proof.
  assert (H : strip "  a.wav " <> "") by discriminate.
  split; [exact H|].
  exact (main_ignores_path_padding demo_world plain_librosa "  a.wav "
           ["out.wav"] H).
Defined.

(** X20: the whole run when nothing fails. The first typed line names a
    file that decodes at a rate other than 0 that converts to the double
    [d], both librosa routines return, a second line is typed and the
    writer returns: the run completes, and what happened is, in order,
    the first prompt, the diagnostic line, the second prompt, one write
    of the normalized pre-emphasized (coefficient [(0.1 * d) / d])
    samples at the rate read, and the closing message. *)
Theorem main_happy_path (w : world) (L : librosa) (s1 s2 : string)
    (rest : list string) (samples y1 y2 : buffer) (rate : Z) (d : float) :
  s1 <> "" -> s2 <> "" ->
  decode w (resolve w (strip s1)) = Ok (samples, rate) ->
  rate <> 0 ->
  float_of_int rate = Ok d ->
  preemphasis L (float_0_1 * d / d)%float samples = Ok y1 ->
  normalize L y1 = Ok y2 ->
  sf_write w (strip s2) y2 rate = Ok tt ->
  run_main w L (s1 :: s2 :: rest) =
  (Ok Completed,
   Console rest
     [EPrompt prompt_in; reading_line w (strip s1); EPrompt prompt_out;
      EWrite (strip s2) y2 rate; EPrint "Audio processing complete!"]).
Proof.
  intros H1 H2 Hdec Hrate Hd Hpre Hnorm Hwrite.
  rewrite run_main_steps. unfold run_by_steps.
  rewrite (loop_accepts_nonempty prompt_in s1 _ H1), Hdec.
  cbv zeta. rewrite (main_process_chain L samples rate d Hrate Hd), Hpre.
  simpl result_bind. rewrite Hnorm.
  rewrite (loop_accepts_nonempty prompt_out s2 _ H2), Hwrite.
  reflexivity.
Qed.

Lemma main_happy_path_witness :
  let L := spec_librosa in
  let samples := [one_half; (- one_tenth)%Qc] in
  let y1 :=
    (one_half + (2 * one_half - - one_tenth))%Qc
    :: first_order (default 0%Qc (Qc_of_float float_0_1)) one_half
         [(- one_tenth)%Qc] in
  (" a.wav" <> "" /\ "out.wav " <> "" /\
   decode demo_world (resolve demo_world (strip " a.wav")) =
     Ok (samples, 8000) /\
   8000 <> 0 /\
   float_of_int 8000 = Ok 8000%float /\
   preemphasis L (float_0_1 * 8000 / 8000)%float samples = Ok y1 /\
   normalize L y1 = Ok (peak_normalize y1) /\
   sf_write demo_world (strip "out.wav ") (peak_normalize y1) 8000 = Ok tt) /\
  run_main demo_world L [" a.wav"; "out.wav "; "more"] =
  (Ok Completed,
   Console ["more"]
     [EPrompt prompt_in; reading_line demo_world (strip " a.wav");
      EPrompt prompt_out;
      EWrite (strip "out.wav ") (peak_normalize y1) 8000;
      EPrint "Audio processing complete!"]).
Proof.
  intros L samples y1.
  assert (H1 : " a.wav" <> "") by discriminate.
  assert (H2 : "out.wav " <> "") by discriminate.
  assert (H3 : decode demo_world (resolve demo_world (strip " a.wav")) =
               Ok (samples, 8000)) by reflexivity.
  assert (H4 : 8000 <> 0) by lia.
  assert (Hd : float_of_int 8000 = Ok 8000%float) by reflexivity.
  assert (H5 : preemphasis L (float_0_1 * 8000 / 8000)%float samples = Ok y1)
    by reflexivity.
  assert (H6 : normalize L y1 = Ok (peak_normalize y1)) by reflexivity.
  assert (H7 : sf_write demo_world (strip "out.wav ") (peak_normalize y1) 8000
               = Ok tt) by reflexivity.
  split; [repeat split; assumption|].
  exact (main_happy_path demo_world L " a.wav" "out.wav " ["more"]
           samples y1 (peak_normalize y1) 8000 8000%float
           H1 H2 H3 H4 Hd H5 H6 H7).
Defined.

(** X21: the closing message is proof of success: if a run of [main] has
    printed "Audio processing complete!", the run completed, so the
    writer was called and returned. *)
Theorem main_closing_message_means_completed (w : world) (L : librosa)
    (typed : list string) :
  In (EPrint "Audio processing complete!")
     (shown (snd (run_main w L typed))) ->
  fst (run_main w L typed) = Ok Completed.
Proof.
  rewrite run_main_steps. unfold run_by_steps.
  pose proof (closing_message_not_in_loop prompt_in typed) as Hn1.
  destruct (get_user_input_loop prompt_in typed) as [[[path|e] rest] evs];
    simpl in Hn1; [|intros H; exfalso; now apply Hn1].
  assert (Hn2 : ~ In (EPrint "Audio processing complete!")
                  (evs ++ [reading_line w path])).
  { rewrite in_app_iff. intros [H|[H|[]]]; [now apply Hn1|].
    now apply (closing_message_not_reading w path). }
  destruct (decode w (resolve w path)) as [[samples rate]|e].
  2:{ simpl. rewrite in_app_iff. intros [H|[H|[H|[]]]]; exfalso.
      - now apply Hn1.
      - now apply (closing_message_not_reading w path).
      - now apply (closing_message_not_failure w path e). }
  simpl.
  destruct (main_process L samples rate) as [d|e];
    [|intros H; exfalso; now apply Hn2].
  pose proof (closing_message_not_in_loop prompt_out rest) as Hn3.
  destruct (get_user_input_loop prompt_out rest) as [[[out|e] rest'] evs'];
    simpl in Hn3.
  2:{ simpl. rewrite in_app_iff.
      intros [H|H]; exfalso; [now apply Hn2|now apply Hn3]. }
  destruct (sf_write w out d rate) as [u|e]; [reflexivity|].
  simpl. rewrite !in_app_iff. intros [[H|H]|[H|[]]]; exfalso.
  - apply Hn2, in_app_iff, H.
  - now apply Hn3.
  - discriminate H.
Qed.

Lemma main_closing_message_means_completed_witness :
  In (EPrint "Audio processing complete!")
     (shown (snd (run_main demo_world plain_librosa ["a.wav"; "out.wav"]))) /\
  fst (run_main demo_world plain_librosa ["a.wav"; "out.wav"]) = Ok Completed.
Proof.
  assert (H : In (EPrint "Audio processing complete!")
     (shown (snd (run_main demo_world plain_librosa ["a.wav"; "out.wav"])))).
  { do 4 right. left. reflexivity. }
  split; [exact H|].
  exact (main_closing_message_means_completed demo_world plain_librosa
           ["a.wav"; "out.wav"] H).
Defined.

(** X22: the output path is asked for only after the file has been read
    and processed. When the first typed line names a file that decodes
    and processes but every later line is empty, the run ends with
    [EOFError] at the second prompt and the processed audio is never
    written. *)
Theorem main_without_output_path (w : world) (L : librosa) (s1 : string)
    (rest : list string) (samples d : buffer) (rate : Z) :
  s1 <> "" ->
  decode w (resolve w (strip s1)) = Ok (samples, rate) ->
  main_process L samples rate = Ok d ->
  Forall (fun s => s = "") rest ->
  fst (run_main w L (s1 :: rest)) = Raise EOFError /\
  written (shown (snd (run_main w L (s1 :: rest)))) = [] /\
  In (reading_line w (strip s1)) (shown (snd (run_main w L (s1 :: rest)))).
Proof.
  intros H1 Hdec Hproc Hrest.
  rewrite run_main_steps. unfold run_by_steps.
  rewrite (loop_accepts_nonempty prompt_in s1 _ H1), Hdec.
  cbv zeta. rewrite Hproc, (loop_all_empty prompt_out rest Hrest).
  split; [reflexivity|]. cbn [snd shown]. split.
  - pose proof (loop_writes_nothing prompt_out rest) as Hw.
    rewrite (loop_all_empty prompt_out rest Hrest) in Hw. cbn [snd] in Hw.
    rewrite written_app, Hw, written_app. reflexivity.
  - rewrite !in_app_iff. left. right. now left.
Qed.

Lemma main_without_output_path_witness :
  ("a.wav" <> "" /\
   decode demo_world (resolve demo_world (strip "a.wav")) =
     Ok ([one_half; (- one_tenth)%Qc], 8000) /\
   main_process plain_librosa [one_half; (- one_tenth)%Qc] 8000
     = Ok [one_half; (- one_tenth)%Qc] /\
   Forall (fun s => s = "") [""]) /\
  fst (run_main demo_world plain_librosa ["a.wav"; ""]) = Raise EOFError /\
  written (shown (snd (run_main demo_world plain_librosa ["a.wav"; ""]))) = []
  /\
  In (reading_line demo_world (strip "a.wav"))
     (shown (snd (run_main demo_world plain_librosa ["a.wav"; ""]))).
Proof.
  assert (H1 : "a.wav" <> "") by discriminate.
  assert (H2 : decode demo_world (resolve demo_world (strip "a.wav")) =
               Ok ([one_half; (- one_tenth)%Qc], 8000)) by reflexivity.
  assert (H3 : main_process plain_librosa [one_half; (- one_tenth)%Qc] 8000
     = Ok [one_half; (- one_tenth)%Qc]) by reflexivity.
  assert (H4 : Forall (fun s => s = "") [""]) by (repeat constructor).
  split; [repeat split; assumption|].
  exact (main_without_output_path demo_world plain_librosa "a.wav" [""]
           _ _ 8000 H1 H2 H3 H4).
Defined.
